(** * Seat inventory and ticket lifecycle of the ticket-booking backend

    A shallow embedding of [api/models.py], [api/serializers.py] and
    [api/views.py]: the [Event] and [Ticket] rows, the two tables of the
    database, the reference-number generator, the QR payload builders, the
    purchase serializer and the [TicketViewSet] actions [create], [cancel]
    and [stats].

    Conventions of the embedding.
    - Money is a [Decimal] with two places in the source; here it is an
      integer number of cents, so [price * quantity] is exact.
    - An instant is a number of seconds since the epoch; a date is a
      number of days since the epoch ([None] for an instance whose date is
      [None]: the column is not nullable, so saving such an instance
      raises [IntegrityError] and no stored event has one); a time of day
      is a number of seconds since midnight.
    - A table is a finite map from primary keys to rows; a primary key is
      a positive number, as an [AutoField] gives them, so that
      [not self.pk] holds of an unsaved instance only.
    - A Python exception is an [exn]; a [while True] loop runs on fuel. *)

From Stdlib Require Import ZArith String Ascii List Bool Lia.
From stdpp Require Import base option list gmap fin_maps strings.

Local Open Scope Z_scope.

(** ** Rows *)

Inductive TicketStatus : Set := pending | confirmed | cancelled.

#[global] Instance TicketStatus_eq_dec : EqDecision TicketStatus.
Proof. solve_decision. Defined.

(** One value of the dictionary built by the QR payload functions, before
    [json.dumps].  Renderings of numbers and dates as text are kept
    symbolic: [QNull] is [None], [QStrOfId i] is [str(x.id)], [QDate d] is
    [formatted_date], [QTime t] is [formatted_time], [QIso i] is
    [isoformat()], [QStrDecimal c] is [str] of an amount. *)
Inductive qr_value : Set :=
| QStr (s : string)
| QInt (z : Z)
| QBool (b : bool)
| QNull
| QStrOfId (i : option positive)
| QDate (d : option Z)
| QTime (t : Z)
| QIso (i : Z)
| QStrDecimal (cents : Z)
| QStatus (s : TicketStatus).

Definition qr_payload : Set := list (string * qr_value).

Module Event.
Record t : Set := Build {
  pk : option positive;
  title : string;
  date : option Z;
  time : Z;
  price : Z;
  total_seats : Z;
  available_seats : Z;
  is_active : bool
}.

Definition set_pk (i : option positive) (e : t) : t :=
  Build i (title e) (date e) (time e) (price e)
        (total_seats e) (available_seats e) (is_active e).

Definition set_available_seats (n : Z) (e : t) : t :=
  Build (pk e) (title e) (date e) (time e) (price e)
        (total_seats e) n (is_active e).

(** [seats_left], [is_sold_out], [is_upcoming] properties. *)
Definition seats_left (e : t) : Z := available_seats e.
Definition is_sold_out (e : t) : bool := available_seats e =? 0.
Definition is_upcoming (today : Z) (e : t) : bool :=
  match date e with
  | None => false
  | Some d => today <=? d
  end.
End Event.

Module Ticket.
Record t : Set := Build {
  pk : option positive;
  title : string;
  price : Z;
  event_id : option positive;
  user_id : option positive;
  purchase_date : option Z;
  status : TicketStatus;
  quantity : Z;
  reference_number : option string;
  qr_code_data : option qr_payload;
  cancelled_date : option Z;
  refund_amount : Z
}.

Definition set_pk (i : option positive) (x : t) : t :=
  Build i (title x) (price x) (event_id x) (user_id x) (purchase_date x)
        (status x) (quantity x) (reference_number x) (qr_code_data x)
        (cancelled_date x) (refund_amount x).

Definition set_price (p : Z) (x : t) : t :=
  Build (pk x) (title x) p (event_id x) (user_id x) (purchase_date x)
        (status x) (quantity x) (reference_number x) (qr_code_data x)
        (cancelled_date x) (refund_amount x).

Definition set_purchase_date (d : option Z) (x : t) : t :=
  Build (pk x) (title x) (price x) (event_id x) (user_id x) d
        (status x) (quantity x) (reference_number x) (qr_code_data x)
        (cancelled_date x) (refund_amount x).

Definition set_status (s : TicketStatus) (x : t) : t :=
  Build (pk x) (title x) (price x) (event_id x) (user_id x) (purchase_date x)
        s (quantity x) (reference_number x) (qr_code_data x)
        (cancelled_date x) (refund_amount x).

Definition set_reference_number (r : option string) (x : t) : t :=
  Build (pk x) (title x) (price x) (event_id x) (user_id x) (purchase_date x)
        (status x) (quantity x) r (qr_code_data x)
        (cancelled_date x) (refund_amount x).

Definition set_qr_code_data (q : option qr_payload) (x : t) : t :=
  Build (pk x) (title x) (price x) (event_id x) (user_id x) (purchase_date x)
        (status x) (quantity x) (reference_number x) q
        (cancelled_date x) (refund_amount x).

Definition set_cancelled_date (d : option Z) (x : t) : t :=
  Build (pk x) (title x) (price x) (event_id x) (user_id x) (purchase_date x)
        (status x) (quantity x) (reference_number x) (qr_code_data x)
        d (refund_amount x).

Definition set_refund_amount (r : Z) (x : t) : t :=
  Build (pk x) (title x) (price x) (event_id x) (user_id x) (purchase_date x)
        (status x) (quantity x) (reference_number x) (qr_code_data x)
        (cancelled_date x) r.

(** [total_price] property: [self.price * self.quantity]. *)
Definition total_price (x : t) : Z := price x * quantity x.
End Ticket.

(** ** The database and the request environment *)

Record DB : Type := mkDB {
  events : gmap positive Event.t;
  tickets : gmap positive Ticket.t
}.

Definition set_events (m : gmap positive Event.t) (d : DB) : DB := mkDB m (tickets d).
Definition set_tickets (m : gmap positive Ticket.t) (d : DB) : DB := mkDB (events d) m.

(** The state a request runs on: the two tables and the position reached
    in the stream of random draws. *)
Record World : Type := mkWorld {
  db : DB;
  cursor : nat
}.

(** What a request reads but does not change: the random source behind
    [secrets.choice], the clock behind [timezone.now()] (one instant per
    request), the fuel of each [while True] loop, and the offset of the
    current time zone used by [timezone.make_aware]. *)
Record Env : Type := mkEnv {
  rng : nat -> nat;
  clock : Z;
  fuel : nat;
  tz_offset : Z
}.

Definition seconds_per_day : Z := 86400.

(** [timezone.now().date()]. *)
Definition today (env : Env) : Z := clock env / seconds_per_day.

(** ** Exceptions and the request monad *)

Inductive validation_error : Set :=
| QuantityBelowMin        (* min_value=1 *)
| QuantityAboveMax        (* max_value=10 *)
| EventNotFound           (* "Event not found" *)
| EventNotActive          (* "Event is not active" *)
| OnlySeatsAvailable (n : Z). (* f"Only {n} seats available" *)

Inductive exn : Set :=
| ValidationError (e : validation_error)
| AttributeError (obj attr : string)
| IntegrityError (column : string)
| Http404.

Inductive outcome (A : Type) : Type :=
| Return (a : A)
| Raise (e : exn)
| OutOfFuel.
Arguments Return {A} a.
Arguments Raise {A} e.
Arguments OutOfFuel {A}.

Definition M (A : Type) : Type := World -> outcome A * World.

Definition ret {A} (a : A) : M A := fun w => (Return a, w).
Definition raise {A} (e : exn) : M A := fun w => (Raise e, w).
Definition bind {A B} (m : M A) (k : A -> M B) : M B :=
  fun w =>
    match m w with
    | (Return a, w') => k a w'
    | (Raise e, w') => (Raise e, w')
    | (OutOfFuel, w') => (OutOfFuel, w')
    end.

Notation "'let!' x ':=' m 'in' k" := (bind m (fun x => k))
  (at level 10, x pattern, m at level 100, k at level 200).
Notation "'do!' m 'in' k" := (bind m (fun _ => k))
  (at level 10, m at level 100, k at level 200).

Definition get_db : M DB := fun w => (Return (db w), w).

(** [with transaction.atomic():] an exception that leaves the block rolls
    the tables back to what they were on entry; the random draws already
    consumed stay consumed. *)
Definition atomic {A} (body : M A) : M A :=
  fun w =>
    match body w with
    | (Return a, w') => (Return a, w')
    | (Raise e, w') => (Raise e, mkWorld (db w) (cursor w'))
    | (OutOfFuel, w') => (OutOfFuel, mkWorld (db w) (cursor w'))
    end.

(** ** Reference numbers *)

(** [string.ascii_uppercase + string.digits]. *)
Definition alphabet : list ascii :=
  list_ascii_of_string "ABCDEFGHIJKLMNOPQRSTUVWXYZ0123456789".

(** [secrets.choice(alphabet)] on one raw draw. *)
Definition secrets_choice (draw : nat) : ascii :=
  nth (draw mod length alphabet)%nat alphabet "A"%char.

(** [''.join(secrets.choice(alphabet) for _ in range(8))], reading the
    draws from position [pos] on. *)
Definition draw_suffix (r : nat -> nat) (pos : nat) : list ascii :=
  map (fun i => secrets_choice (r (pos + i)%nat)) (seq 0 8).

Definition candidate (r : nat -> nat) (pos : nat) : string :=
  ("TKT-" +:+ string_of_list_ascii (draw_suffix r pos))%string.

(** [Ticket.objects.filter(reference_number=ref).exists()]. *)
Definition reference_exists (tk : gmap positive Ticket.t) (ref : string) : bool :=
  existsb (fun kv => bool_decide (Ticket.reference_number (snd kv) = Some ref))
          (map_to_list tk).

(** The [while True] loop shared, word for word, by
    [serializers.generate_reference_number] and the static method
    [Ticket.generate_reference_number]. *)
Fixpoint reference_loop (r : nat -> nat) (tk : gmap positive Ticket.t)
         (n pos : nat) : option (string * nat) :=
  match n with
  | O => None
  | S n' =>
      let ref := candidate r pos in
      if reference_exists tk ref
      then reference_loop r tk n' (pos + 8)%nat
      else Some (ref, (pos + 8)%nat)
  end.

Definition run_reference_loop (env : Env) : M string :=
  fun w =>
    match reference_loop (rng env) (tickets (db w)) (fuel env) (cursor w) with
    | Some (ref, pos) => (Return ref, mkWorld (db w) pos)
    | None => (OutOfFuel, w)
    end.

(** ** [api/models.py] *)

Module models.

(** The key an [AutoField] gives the next inserted row: 1 in an empty
    table, one more than the largest key otherwise. *)
Definition next_pk {A} (m : gmap positive A) : positive :=
  match map fst (map_to_list m) with
  | [] => 1%positive
  | k :: keys => Pos.succ (foldr Pos.max k keys)
  end.

(** [super().save()] of an [Event]: insert when the instance has no
    primary key, update its row otherwise.  The [date] column is declared
    without [null=True]: writing an instance whose date is [None] raises
    [IntegrityError] and writes nothing. *)
Definition Event_store (e : Event.t) : M Event.t :=
  fun w =>
    match Event.date e with
    | None => (Raise (IntegrityError "date"), w)
    | Some _ =>
        let i := match Event.pk e with
                 | Some i => i
                 | None => next_pk (events (db w))
                 end in
        let e' := Event.set_pk (Some i) e in
        (Return e', mkWorld (set_events (<[i := e']> (events (db w))) (db w))
                            (cursor w))
    end.

(** [Event.save]. *)
Definition Event_save (e : Event.t) : M Event.t :=
  let e1 := match Event.pk e with
            | None => Event.set_available_seats (Event.total_seats e) e
            | Some _ => e
            end in
  Event_store e1.

(** [Event.objects.get(pk=i)] for a key known to be positive. *)
Definition Event_load (d : DB) (i : positive) : option Event.t :=
  Event.set_pk (Some i) <$> events d !! i.

(** [self.event] of a ticket: the related row, [None] for a null
    foreign key.  The foreign key constraint of the database is what
    makes the row exist; a dangling key reads as [None] here. *)
Definition related_event (d : DB) (x : Ticket.t) : option Event.t :=
  match Ticket.event_id x with
  | Some i => Event_load d i
  | None => None
  end.

(** [Ticket.generate_reference_number] (static method). *)
Definition Ticket_generate_reference_number (env : Env) : M string :=
  run_reference_loop env.

(** [Ticket.generate_qr_code_data] (method), before [json.dumps]. *)
Definition Ticket_generate_qr_code_data (d : DB) (x : Ticket.t) : qr_payload :=
  let ev := related_event d x in
  [ ("ticket_id", QStrOfId (Ticket.pk x));
    ("reference_number",
      match Ticket.reference_number x with Some r => QStr r | None => QNull end);
    ("event_id",
      match ev with Some e => QStrOfId (Event.pk e) | None => QStr "" end);
    ("event_title",
      match ev with Some e => QStr (Event.title e) | None => QStr "" end);
    ("event_date",
      match ev with Some e => QDate (Event.date e) | None => QStr "" end);
    ("event_time",
      match ev with Some e => QTime (Event.time e) | None => QStr "" end);
    ("user_id",
      match Ticket.user_id x with
      | Some u => QStrOfId (Some u)
      | None => QStr ""
      end);
    ("quantity", QInt (Ticket.quantity x));
    ("total_price", QStrDecimal (Ticket.total_price x));
    ("purchase_date",
      match Ticket.purchase_date x with Some p => QIso p | None => QStr "" end);
    ("status", QStatus (Ticket.status x));
    ("verified", QBool false) ]%string.

(** [not self.reference_number]: null or empty. *)
Definition no_reference (x : Ticket.t) : bool :=
  match Ticket.reference_number x with
  | None => true
  | Some r => bool_decide (r = ""%string)
  end.

(** [super().save()] of a [Ticket]: an instance with a key whose row
    exists is an update and rewrites the row; otherwise it is an insert,
    under the key of the instance or the next key, and stamps
    [purchase_date] ([auto_now_add]). *)
Definition Ticket_store (env : Env) (x : Ticket.t) : M Ticket.t :=
  fun w =>
    let i := match Ticket.pk x with
             | Some i => i
             | None => next_pk (tickets (db w))
             end in
    let x' := match tickets (db w) !! i with
              | Some _ => x
              | None =>
                  Ticket.set_purchase_date (Some (clock env))
                    (Ticket.set_pk (Some i) x)
              end in
    (Return x', mkWorld (set_tickets (<[i := x']> (tickets (db w))) (db w))
                        (cursor w)).

(** The three field adjustments of [Ticket.save] that follow the
    reference number: the price copied from the event when the ticket
    has none, the QR payload built when missing, the cancellation stamp
    and refund of a ticket cancelled for the first time. *)
Definition Ticket_presave (env : Env) (d : DB) (x1 : Ticket.t) : Ticket.t :=
  let ev := related_event d x1 in
  let x2 :=
    match ev with
    | Some e =>
        if Ticket.price x1 =? 0 then Ticket.set_price (Event.price e) x1 else x1
    | None => x1
    end in
  let x3 :=
    match Ticket.qr_code_data x2, ev, Ticket.user_id x2 with
    | None, Some _, Some _ =>
        Ticket.set_qr_code_data (Some (Ticket_generate_qr_code_data d x2)) x2
    | _, _, _ => x2
    end in
  match Ticket.status x3, Ticket.cancelled_date x3 with
  | cancelled, None =>
      let y := Ticket.set_cancelled_date (Some (clock env)) x3 in
      Ticket.set_refund_amount (Ticket.total_price y) y
  | _, _ => x3
  end.

(** [Ticket.save]. *)
Definition Ticket_save (env : Env) (x : Ticket.t) : M Ticket.t :=
  let! x1 :=
    (if no_reference x
     then let! r := Ticket_generate_reference_number env in
          ret (Ticket.set_reference_number (Some r) x)
     else ret x) in
  let! d := get_db in
  Ticket_store env (Ticket_presave env d x1).

(** [Ticket.objects.create] with keyword arguments. *)
Definition Ticket_objects_create (env : Env) (x : Ticket.t) : M Ticket.t :=
  Ticket_save env (Ticket.set_pk None x).

(** [Ticket.can_be_cancelled] (property).  [event_datetime] is the
    instant of [make_aware(datetime.combine(date, time))]. *)
Definition event_datetime (env : Env) (day : Z) (e : Event.t) : Z :=
  day * seconds_per_day + Event.time e - tz_offset env.

Definition Ticket_can_be_cancelled (env : Env) (d : DB) (x : Ticket.t) : bool :=
  if negb (bool_decide (Ticket.status x = confirmed)) then false
  else
    match related_event d x with
    | None => false
    | Some e =>
        match Event.date e with
        | None => false
        | Some day => 24 * 60 * 60 <? event_datetime env day e - clock env
        end
    end.

(** [Ticket.cancel(refund_amount=None)]: returns the boolean of the
    source together with the instance as the method leaves it. *)
Definition Ticket_cancel (env : Env) (x : Ticket.t) (refund_amount : option Z)
  : M (bool * Ticket.t) :=
  let! d := get_db in
  if negb (Ticket_can_be_cancelled env d x) then ret (false, x)
  else
    let x1 := Ticket.set_status cancelled x in
    let x2 := Ticket.set_cancelled_date (Some (clock env)) x1 in
    let x3 :=
      match refund_amount with
      | Some r => Ticket.set_refund_amount r x2
      | None => Ticket.set_refund_amount (Ticket.total_price x2) x2
      end in
    do! (match related_event d x3 with
         | Some e =>
             do! Event_save
                   (Event.set_available_seats
                      (Event.available_seats e + Ticket.quantity x3) e) in
             ret tt
         | None => ret tt
         end) in
    let! x4 := Ticket_save env x3 in
    ret (true, x4).

End models.

(** ** [api/serializers.py] *)

Module serializers.

(** The body of a purchase request after parsing: the two integer
    fields.  The payment fields never reach the seat logic and are left
    out. *)
Record PurchaseRequest : Set := mkPurchase {
  event_id : Z;
  quantity : Z
}.

(** [Event.objects.get(id=event_id)]; [None] is [Event.DoesNotExist]. *)
Definition Event_objects_get (d : DB) (id : Z) : option Event.t :=
  match id with
  | Zpos i => models.Event_load d i
  | _ => None
  end.

(** The field validators of [quantity]: [min_value=1], [max_value=10]. *)
Definition validate_quantity (q : Z) : option validation_error :=
  if q <? 1 then Some QuantityBelowMin
  else if 10 <? q then Some QuantityAboveMax
  else None.

(** [TicketPurchaseSerializer.validate]. *)
Definition TicketPurchaseSerializer_validate (d : DB) (data : PurchaseRequest)
  : validation_error + Event.t :=
  match Event_objects_get d (event_id data) with
  | None => inl EventNotFound
  | Some event =>
      if negb (Event.is_active event) then inl EventNotActive
      else if Event.available_seats event <? quantity data
           then inl (OnlySeatsAvailable (Event.available_seats event))
           else inr event
  end.

(** [is_valid(raise_exception=True)]: field validators first, then
    [validate]; gives [validated_data['event']] and
    [validated_data['quantity']]. *)
Definition TicketPurchaseSerializer_is_valid (data : PurchaseRequest)
  : M (Event.t * Z) :=
  match validate_quantity (quantity data) with
  | Some e => raise (ValidationError e)
  | None =>
      let! d := get_db in
      match TicketPurchaseSerializer_validate d data with
      | inl e => raise (ValidationError e)
      | inr event => ret (event, quantity data)
      end
  end.

(** [generate_reference_number] (module function). *)
Definition generate_reference_number (env : Env) : M string :=
  run_reference_loop env.

(** What [generate_qr_code_data] is called on: a dictionary literal
    (its keys) or a [Ticket] instance. *)
Inductive qr_argument : Set :=
| PyDict (keys : list string)
| PyTicket (x : Ticket.t).

(** [generate_qr_code_data] (module function), before [json.dumps].
    It reads its argument by attribute access, [ticket.id] first. *)
Definition generate_qr_code_data (env : Env) (arg : qr_argument)
  : M qr_payload :=
  match arg with
  | PyDict _ => raise (AttributeError "dict" "id")
  | PyTicket x =>
      let! d := get_db in
      match models.related_event d x with
      | None => raise (AttributeError "NoneType" "id")
      | Some e =>
          match Ticket.user_id x with
          | None => raise (AttributeError "NoneType" "id")
          | Some u =>
              ret [ ("ticket_id", QStrOfId (Ticket.pk x));
                    ("reference_number",
                      match Ticket.reference_number x with
                      | Some r => QStr r
                      | None => QNull
                      end);
                    ("event_id", QStrOfId (Event.pk e));
                    ("event_title", QStr (Event.title e));
                    ("user_id", QStrOfId (Some u));
                    ("quantity", QInt (Ticket.quantity x));
                    ("purchase_date",
                      match Ticket.purchase_date x with
                      | Some p => QIso p
                      | None => QIso (clock env)
                      end);
                    ("verified", QBool false) ]%string
          end
      end
  end.

End serializers.

(** ** [api/views.py] *)

Module views.

(** The responses of the three actions. *)
Inductive Response : Set :=
| Created (ticket : Ticket.t)
    (* 201, the serialized ticket *)
| BadRequest_OnlySeats (n : Z)
    (* 400 {'error': f'Only {n} seats available'} *)
| BadRequest_AlreadyCancelled
    (* 400 {'error': 'Ticket already cancelled'} *)
| BadRequest_LessThan24Hours
    (* 400 {'error': 'Cannot cancel ticket less than 24 hours before event'} *)
| CancelledOk (refund_amount : Z)
    (* 200 {'message': 'Ticket cancelled successfully', 'refund_amount': ...} *)
| StatsOk (total_tickets upcoming_tickets : nat) (total_spent : Z).
    (* 200 {'total_tickets': ..., 'upcoming_tickets': ..., 'total_spent': ...} *)

(** [TicketViewSet.get_queryset]: the tickets of the requesting user.
    The [order_by] of the source changes no count and no sum and is left
    out. *)
Definition owned_by (user : positive) (x : Ticket.t) : bool :=
  bool_decide (Ticket.user_id x = Some user).

Definition all_tickets (d : DB) : list Ticket.t :=
  map (fun kv => Ticket.set_pk (Some (fst kv)) (snd kv))
      (map_to_list (tickets d)).

Definition get_queryset (d : DB) (user : positive) : list Ticket.t :=
  List.filter (owned_by user) (all_tickets d).

(** [self.get_object()]: the ticket of that key among the user's own,
    [Http404] otherwise. *)
Definition get_object (user pk : positive) : M Ticket.t :=
  let! d := get_db in
  match tickets d !! pk with
  | Some x =>
      if owned_by user x then ret (Ticket.set_pk (Some pk) x)
      else raise Http404
  | None => raise Http404
  end.

(** [TicketViewSet.create]. *)
Definition TicketViewSet_create (env : Env) (user : positive)
           (data : serializers.PurchaseRequest) : M Response :=
  let! (event, quantity) :=
    serializers.TicketPurchaseSerializer_is_valid data in
  atomic (
    if Event.available_seats event <? quantity
    then ret (BadRequest_OnlySeats (Event.available_seats event))
    else
      let! event :=
        models.Event_save
          (Event.set_available_seats
             (Event.available_seats event - quantity) event) in
      let! reference_number := serializers.generate_reference_number env in
      let! _ := serializers.generate_reference_number env in
      let! qr_code_data :=
        serializers.generate_qr_code_data env
          (serializers.PyDict
             ["id"; "event"; "user"; "quantity"; "purchase_date";
              "reference_number"]%string) in
      let! ticket :=
        models.Ticket_objects_create env
          (Ticket.Build None (Event.title event +:+ " Ticket")
             (Event.price event) (Event.pk event) (Some user) None
             confirmed quantity (Some reference_number)
             (Some qr_code_data) None 0) in
      let! qr_code_data :=
        serializers.generate_qr_code_data env (serializers.PyTicket ticket) in
      let! ticket :=
        models.Ticket_save env
          (Ticket.set_qr_code_data (Some qr_code_data) ticket) in
      ret (Created ticket)).

(** [TicketViewSet.cancel]. *)
Definition TicketViewSet_cancel (env : Env) (user pk : positive) : M Response :=
  let! ticket := get_object user pk in
  if bool_decide (Ticket.status ticket = cancelled)
  then ret BadRequest_AlreadyCancelled
  else
    let! d := get_db in
    match models.related_event d ticket with
    | None => raise (AttributeError "NoneType" "date")
    | Some event =>
        let too_late :=
          match Event.date event with
          | Some event_date => event_date - today env <? 1
          | None => false
          end in
        if too_late then ret BadRequest_LessThan24Hours
        else
          let! ticket :=
            atomic (
              do! models.Event_save
                    (Event.set_available_seats
                       (Event.available_seats event + Ticket.quantity ticket)
                       event) in
              models.Ticket_save env (Ticket.set_status cancelled ticket)) in
          ret (CancelledOk (Ticket.price ticket * Ticket.quantity ticket))
    end.

(** The filter [status='confirmed', event__date__gte=today] of [stats]
    and [upcoming]: the join drops a ticket without event and an event
    without date. *)
Definition is_confirmed (x : Ticket.t) : bool :=
  bool_decide (Ticket.status x = confirmed).

Definition event_date_gte (d : DB) (day : Z) (x : Ticket.t) : bool :=
  match models.related_event d x with
  | Some e =>
      match Event.date e with
      | Some event_date => day <=? event_date
      | None => false
      end
  | None => false
  end.

(** [sum(ticket.price * ticket.quantity for ticket in ...)]. *)
Definition sum_spent (l : list Ticket.t) : Z :=
  foldl (fun acc x => acc + Ticket.price x * Ticket.quantity x) 0 l.

(** [TicketViewSet.stats]; [total_spent] is the amount handed to
    [float]. *)
Definition TicketViewSet_stats (env : Env) (user : positive) : M Response :=
  let! d := get_db in
  let tickets := get_queryset d user in
  let total_tickets := length tickets in
  let upcoming_tickets :=
    length (List.filter
              (fun x => is_confirmed x && event_date_gte d (today env) x)
              tickets) in
  let total_spent := sum_spent (List.filter is_confirmed tickets) in
  ret (StatsOk total_tickets upcoming_tickets total_spent).

End views.

(** ** Reference points for the statements *)

(** A reference number reads [TKT-] and then exactly eight characters,
    each an upper-case letter or a digit. *)
Definition uppercase_or_digit (c : ascii) : bool :=
  let n := nat_of_ascii c in
  ((65 <=? n)%nat && (n <=? 90)%nat) || ((48 <=? n)%nat && (n <=? 57)%nat).

Definition well_formed_reference (ref : string) : bool :=
  match list_ascii_of_string ref with
  | "T"%char :: "K"%char :: "T"%char :: "-"%char :: suffix =>
      (length suffix =? 8)%nat && forallb uppercase_or_digit suffix
  | _ => false
  end.

(** No stored ticket carries the reference [ref]. *)
Definition unused_reference (d : DB) (ref : string) : Prop :=
  forall i x, tickets d !! i = Some x -> Ticket.reference_number x <> Some ref.

(** The draws allow [Ticket.save] to return: the ticket has a reference
    number already, or one of the first [fuel] candidates is unused. *)
Definition save_returns (env : Env) (w : World) (x : Ticket.t) : Prop :=
  models.no_reference x = false \/
  exists k, (k < fuel env)%nat /\
    reference_exists (tickets (db w))
      (candidate (rng env) (cursor w + 8 * k)%nat) = false.

(** The figures of the stats query said over the rows of the table: how
    many rows satisfy a condition, and what the rows satisfying it add
    up to. *)
Fixpoint count_rows (P : Ticket.t -> bool) (l : list Ticket.t) : nat :=
  match l with
  | [] => O
  | x :: l' => if P x then S (count_rows P l') else count_rows P l'
  end.

Fixpoint total_rows (P : Ticket.t -> bool) (l : list Ticket.t) : Z :=
  match l with
  | [] => 0
  | x :: l' =>
      if P x then Ticket.price x * Ticket.quantity x + total_rows P l'
      else total_rows P l'
  end.

(** The date of the ticket's event lies after the day [day]. *)
Definition event_date_after (d : DB) (day : Z) (x : Ticket.t) : bool :=
  match models.related_event d x with
  | Some e =>
      match Event.date e with
      | Some event_date => day <? event_date
      | None => false
      end
  | None => false
  end.

Definition spec_total_tickets (d : DB) (user : positive) : nat :=
  count_rows (views.owned_by user) (views.all_tickets d).

(** Upcoming as the words "in the future" have it: strictly after today. *)
Definition spec_upcoming_future (d : DB) (day : Z) (user : positive) : nat :=
  count_rows
    (fun x => views.owned_by user x && views.is_confirmed x
              && event_date_after d day x)
    (views.all_tickets d).

(** Upcoming as today or later. *)
Definition spec_upcoming_from_today (d : DB) (day : Z) (user : positive) : nat :=
  count_rows
    (fun x => views.owned_by user x && views.is_confirmed x
              && views.event_date_gte d day x)
    (views.all_tickets d).

Definition spec_total_spent (d : DB) (user : positive) : Z :=
  total_rows (fun x => views.owned_by user x && views.is_confirmed x)
             (views.all_tickets d).

(** The unit price [Ticket.save] leaves on a ticket: its own, or the
    event's current price when its own is zero. *)
Definition saved_price (d : DB) (y : Ticket.t) : Z :=
  match models.related_event d y with
  | Some e => if Ticket.price y =? 0 then Event.price e else Ticket.price y
  | None => Ticket.price y
  end.

(** The date test of [TicketViewSet.cancel]: the event has a date and it
    is less than one day after today's. *)
Definition cancel_too_late (env : Env) (e : Event.t) : bool :=
  match Event.date e with
  | Some event_date => event_date - today env <? 1
  | None => false
  end.

(** The event row after [n] seats went back to it. *)
Definition seats_restored (i : positive) (n : Z) (e : Event.t) : Event.t :=
  Event.set_available_seats (Event.available_seats e + n)
    (Event.set_pk (Some i) e).

(** Every seat counter and every ticket quantity of the database is
    non-negative, as the [PositiveIntegerField] columns require. *)
Definition seats_nonneg (d : DB) : Prop :=
  (forall i e, events d !! i = Some e -> 0 <= Event.available_seats e) /\
  (forall i x, tickets d !! i = Some x -> 0 <= Ticket.quantity x).

(** A history of requests served one after the other, each with its own
    clock and draws. *)
Inductive request : Type :=
| Purchase (env : Env) (user : positive) (data : serializers.PurchaseRequest)
| Cancel (env : Env) (user pk : positive).

Definition handle (w : World) (r : request) : World :=
  match r with
  | Purchase env user data => snd (views.TicketViewSet_create env user data w)
  | Cancel env user pk => snd (views.TicketViewSet_cancel env user pk w)
  end.

Definition serve (rs : list request) (w : World) : World := foldl handle w rs.

(** ** [TicketViewSet.upcoming] and the actions of [api/admin.py] *)

(** [TicketViewSet.upcoming]: the rows handed to the serializer.  As in
    [get_queryset] the [order_by] is left out; the answer is read as the
    collection of its rows. *)
Definition TicketViewSet_upcoming (env : Env) (user : positive)
  : M (list Ticket.t) :=
  let! d := get_db in
  ret (List.filter
         (fun x => views.is_confirmed x
                   && views.event_date_gte d (today env) x)
         (views.get_queryset d user)).

Module admin.


(** [queryset.update(...)]: one UPDATE over the selected rows; no [save]
    method runs. *)
Definition update_rows {A} (f : A -> A) (queryset : gset positive)
           (m : gmap positive A) : gmap positive A :=
  map_imap (fun k x => Some (if bool_decide (k ∈ queryset) then f x else x)) m.

Definition update_tickets (f : Ticket.t -> Ticket.t) (queryset : gset positive)
  : M unit :=
  fun w =>
    (Return tt,
     mkWorld (set_tickets (update_rows f queryset (tickets (db w))) (db w))
             (cursor w)).




Definition confirm_tickets (queryset : gset positive) : M unit :=
  update_tickets (Ticket.set_status confirmed) queryset.

Definition cancel_tickets (queryset : gset positive) : M unit :=
  update_tickets (Ticket.set_status cancelled) queryset.

End admin.

(** An instance on which the field adjustments of [Ticket.save] have
    nothing left to do: a zero price only with an event whose price is
    zero, a missing QR payload only without event or user, a cancelled
    status only with a cancellation date. *)
Definition settled (d : DB) (t : Ticket.t) : Prop :=
  (forall e, models.related_event d t = Some e ->
             Ticket.price t = 0 -> Event.price e = 0) /\
  (Ticket.qr_code_data t = None ->
   models.related_event d t = None \/ Ticket.user_id t = None) /\
  (Ticket.status t = cancelled -> Ticket.cancelled_date t <> None).

(** No two rows of the tickets table carry the same reference number
    (the [unique=True] of the column; null references do not count). *)
Definition unique_references (d : DB) : Prop :=
  forall j k x y r,
    tickets d !! j = Some x -> tickets d !! k = Some y ->
    Ticket.reference_number x = Some r -> Ticket.reference_number y = Some r ->
    j = k.

(** ** Sample data *)

(** 20:00 on day 20000; the draws count up, so the first candidate is
    [TKT-ABCDEFGH] and the second [TKT-IJKLMNOP]. *)
Definition sample_env : Env :=
  mkEnv (fun n => n) (20000 * 86400 + 72000) 3 0.

Definition sample_event (date : option Z) (time price seats : Z) : Event.t :=
  Event.Build (Some 1%positive) "Concert" date time price 10 seats true.

Definition sample_ticket (price quantity : Z) (status : TicketStatus)
           (cancelled_date : option Z) (refund_amount : Z) : Ticket.t :=
  Ticket.Build (Some 1%positive) "Concert Ticket" price (Some 1%positive)
               (Some 7%positive) (Some 1727000000) status quantity
               (Some "TKT-ABCDEFGH"%string) None cancelled_date refund_amount.

Definition sample_world (e : Event.t) (l : list Ticket.t) : World :=
  mkWorld (mkDB {[ 1%positive := e ]}
                (list_to_map (zip (map Pos.of_nat (seq 1 (length l))) l)))
          0.

(** * Properties *)

(** ** The reference-number loop *)

Section ReferenceLoop.
Variable r : nat -> nat.
Variable tk : gmap positive Ticket.t.

Lemma reference_exists_true (ref : string) :
  reference_exists tk ref = true <->
  exists i x, tk !! i = Some x /\ Ticket.reference_number x = Some ref.
Proof.
  unfold reference_exists. rewrite existsb_exists. split.
  - intros [[i x] [Hin Hb]]. exists i, x. split.
    + apply elem_of_map_to_list. by apply list_elem_of_In.
    + by apply bool_decide_eq_true in Hb.
  - intros (i & x & Hl & Hr). exists (i, x). split.
    + apply list_elem_of_In. by apply elem_of_map_to_list.
    + by apply bool_decide_eq_true.
Qed.

Lemma reference_exists_false (ref : string) :
  reference_exists tk ref = false <->
  forall i x, tk !! i = Some x -> Ticket.reference_number x <> Some ref.
Proof.
  split.
  - intros Hf i x Hl Hr.
    assert (reference_exists tk ref = true) as Ht
      by (apply reference_exists_true; eauto).
    congruence.
  - intros Hall. destruct (reference_exists tk ref) eqn:E; [|done].
    apply reference_exists_true in E as (i & x & Hl & Hr).
    by destruct (Hall i x Hl).
Qed.

(** What the loop returns is the first unused candidate: every earlier
    one collided and was drawn again. *)
Lemma reference_loop_sound (n pos : nat) (ref : string) (pos' : nat) :
  reference_loop r tk n pos = Some (ref, pos') ->
  exists k, (k < n)%nat /\
    ref = candidate r (pos + 8 * k)%nat /\
    pos' = (pos + 8 * S k)%nat /\
    reference_exists tk ref = false /\
    forall j, (j < k)%nat ->
      reference_exists tk (candidate r (pos + 8 * j)%nat) = true.
Proof.
  revert pos. induction n as [|n IH]; intros pos Hloop; [discriminate|].
  simpl in Hloop.
  destruct (reference_exists tk (candidate r pos)) eqn:E.
  - apply IH in Hloop as (k & Hk & Href & Hpos & Hfree & Hbusy).
    exists (S k). repeat split; try lia; try done.
    + rewrite Href. f_equal. lia.
    + intros j Hj. destruct j as [|j].
      * by replace (pos + 8 * 0)%nat with pos by lia.
      * replace (pos + 8 * S j)%nat with (pos + 8 + 8 * j)%nat by lia.
        apply Hbusy. lia.
  - injection Hloop as <- <-. exists 0%nat.
    replace (pos + 8 * 0)%nat with pos by lia.
    repeat split; try lia; try done.
Qed.

(** Enough fuel gives a result as soon as one candidate is unused. *)
Lemma reference_loop_returns (n pos k : nat) :
  (k < n)%nat ->
  reference_exists tk (candidate r (pos + 8 * k)%nat) = false ->
  exists ref pos', reference_loop r tk n pos = Some (ref, pos').
Proof.
  revert pos k. induction n as [|n IH]; intros pos k Hk Hfree; [lia|].
  simpl. destruct (reference_exists tk (candidate r pos)) eqn:E; [|eauto].
  destruct k as [|k].
  - replace (pos + 8 * 0)%nat with pos in Hfree by lia. congruence.
  - apply (IH (pos + 8)%nat k); [lia|].
    by replace (pos + 8 + 8 * k)%nat with (pos + 8 * S k)%nat by lia.
Qed.
End ReferenceLoop.

Lemma secrets_choice_in_alphabet (draw : nat) :
  uppercase_or_digit (secrets_choice draw) = true.
Proof.
  assert (forallb uppercase_or_digit alphabet = true) as Hall by reflexivity.
  rewrite forallb_forall in Hall. apply Hall. unfold secrets_choice.
  apply nth_In. apply Nat.mod_upper_bound. discriminate.
Qed.

Lemma candidate_well_formed (r : nat -> nat) (pos : nat) :
  well_formed_reference (candidate r pos) = true.
Proof.
  unfold well_formed_reference, candidate. simpl.
  rewrite !secrets_choice_in_alphabet. reflexivity.
Qed.

Lemma run_reference_loop_inv (env : Env) (w w' : World) (ref : string) :
  run_reference_loop env w = (Return ref, w') ->
  exists pos', reference_loop (rng env) (tickets (db w)) (fuel env) (cursor w)
               = Some (ref, pos') /\ w' = mkWorld (db w) pos'.
Proof.
  unfold run_reference_loop.
  destruct (reference_loop _ _ _ _) as [[ref0 pos0]|]; [|discriminate].
  intros [= <- <-]. eauto.
Qed.

(** The generator returns as soon as one of the first [fuel] candidates
    is unused. *)
Lemma generate_reference_number_returns (env : Env) (w : World) (k : nat) :
  (k < fuel env)%nat ->
  reference_exists (tickets (db w))
    (candidate (rng env) (cursor w + 8 * k)%nat) = false ->
  exists ref pos',
    serializers.generate_reference_number env w
    = (Return ref, mkWorld (db w) pos').
Proof.
  intros Hk Hfree.
  destruct (reference_loop_returns (rng env) (tickets (db w)) (fuel env)
              (cursor w) k Hk Hfree) as (ref & pos' & Hloop).
  exists ref, pos'.
  unfold serializers.generate_reference_number, run_reference_loop.
  by rewrite Hloop.
Qed.

(** C8. A reference number returned by either generator reads [TKT-]
    followed by exactly eight characters, each an upper-case letter or a
    digit; no stored ticket carries it at that moment; it is the first
    unused candidate, every earlier candidate having collided and been
    drawn again; the tables are left as they were.  And the generator
    does return as soon as one of its first [fuel] candidates is unused. *)
Theorem generate_reference_number_fresh (env : Env) (w : World) :
  (forall ref w',
      serializers.generate_reference_number env w = (Return ref, w') \/
      models.Ticket_generate_reference_number env w = (Return ref, w') ->
      well_formed_reference ref = true /\
      unused_reference (db w) ref /\
      db w' = db w /\
      exists k, (k < fuel env)%nat /\
        ref = candidate (rng env) (cursor w + 8 * k)%nat /\
        cursor w' = (cursor w + 8 * S k)%nat /\
        forall j, (j < k)%nat ->
          reference_exists (tickets (db w))
            (candidate (rng env) (cursor w + 8 * j)%nat) = true) /\
  (forall k, (k < fuel env)%nat ->
      reference_exists (tickets (db w))
        (candidate (rng env) (cursor w + 8 * k)%nat) = false ->
      exists ref pos',
        serializers.generate_reference_number env w
        = (Return ref, mkWorld (db w) pos') /\
        models.Ticket_generate_reference_number env w
        = (Return ref, mkWorld (db w) pos')).
Proof.
  split.
  - intros ref w' Hret.
    assert (run_reference_loop env w = (Return ref, w')) as Hrun
      by (destruct Hret as [H|H]; exact H).
    apply run_reference_loop_inv in Hrun as (pos' & Hloop & ->).
    apply reference_loop_sound in Hloop
      as (k & Hk & Href & Hpos & Hfree & Hbusy).
    split; [|split; [|split]].
    + rewrite Href. apply candidate_well_formed.
    + exact (proj1 (reference_exists_false _ _) Hfree).
    + reflexivity.
    + exists k. simpl. repeat split; done.
  - intros k Hk Hfree.
    destruct (generate_reference_number_returns env w k Hk Hfree)
      as (ref & pos' & Hrun).
    exists ref, pos'. split; exact Hrun.
Qed.

Lemma generate_reference_number_fresh_witness :
  let w := sample_world (sample_event None 0 0 10)
                        [sample_ticket 2000 3 confirmed None 0] in
  well_formed_reference "TKT-IJKLMNOP" = true /\
  unused_reference (db w) "TKT-IJKLMNOP" /\
  db (mkWorld (db w) 16) = db w /\
  exists k, (k < fuel sample_env)%nat /\
    "TKT-IJKLMNOP"%string = candidate (rng sample_env) (cursor w + 8 * k)%nat /\
    cursor (mkWorld (db w) 16) = (cursor w + 8 * S k)%nat /\
    forall j, (j < k)%nat ->
      reference_exists (tickets (db w))
        (candidate (rng sample_env) (cursor w + 8 * j)%nat) = true.
Proof.
  intros w.
  apply (proj1 (generate_reference_number_fresh sample_env w)
           "TKT-IJKLMNOP"%string (mkWorld (db w) 16)).
  left. vm_compute. reflexivity.
Defined.

(** ** Purchase *)

Ltac run_monad :=
  unfold bind, ret, raise, get_db; simpl.

(** A purchase request never leaves [create] with a ticket, and never
    changes a table: every request that passes validation and the seat
    check ends in the [AttributeError] of [generate_qr_code_data] called on
    a dictionary (or in the reference loop), inside the atomic block. *)
Lemma create_never_creates (env : Env) (user : positive)
      (data : serializers.PurchaseRequest) (w : World) :
  db (snd (views.TicketViewSet_create env user data w)) = db w /\
  forall ticket,
    fst (views.TicketViewSet_create env user data w)
    <> Return (views.Created ticket).
Proof.
  unfold views.TicketViewSet_create, serializers.TicketPurchaseSerializer_is_valid.
  destruct (serializers.validate_quantity _); [by run_monad|].
  run_monad.
  destruct (serializers.TicketPurchaseSerializer_validate _ _) as [err|event];
    [by run_monad|].
  run_monad. unfold atomic.
  destruct (Event.available_seats event <? serializers.quantity data);
    [by run_monad|].
  run_monad.
  unfold models.Event_save, models.Event_store,
    serializers.generate_reference_number, run_reference_loop. simpl.
  destruct (Event.pk event) as [i|]; simpl;
    (destruct (Event.date event) as [day|]; simpl; [|done]);
    (destruct (reference_loop _ _ _ _) as [[ref1 pos1]|]; [|by simpl]); simpl;
    (destruct (reference_loop _ _ _ _) as [[ref2 pos2]|]; by simpl).
Qed.

(** With too few seats left the request is refused by the serializer,
    with the message [Only n seats available], and nothing changes. *)
Lemma create_insufficient_seats (env : Env) (user : positive)
      (data : serializers.PurchaseRequest) (w : World) (event : Event.t) :
  1 <= serializers.quantity data <= 10 ->
  serializers.Event_objects_get (db w) (serializers.event_id data) = Some event ->
  Event.is_active event = true ->
  Event.available_seats event < serializers.quantity data ->
  views.TicketViewSet_create env user data w
  = (Raise (ValidationError (OnlySeatsAvailable (Event.available_seats event))), w).
Proof.
  intros Hq Hget Hact Hlt.
  unfold views.TicketViewSet_create, serializers.TicketPurchaseSerializer_is_valid,
    serializers.validate_quantity.
  destruct (Z.ltb_spec (serializers.quantity data) 1); [lia|].
  destruct (Z.ltb_spec 10 (serializers.quantity data)); [lia|].
  run_monad. unfold serializers.TicketPurchaseSerializer_validate.
  rewrite Hget, Hact. simpl.
  destruct (Z.ltb_spec (Event.available_seats event) (serializers.quantity data));
    [done|lia].
Qed.

(** C7. A purchase request whose quantity lies outside 1..10, whose event
    does not exist, or whose event is not active raises a validation
    error and leaves the whole state as it was: no seat counter moves and
    no ticket is created. *)
Theorem create_rejects_invalid_request
        (env : Env) (user : positive)
        (data : serializers.PurchaseRequest) (w : World)
        (Hbad : (serializers.quantity data < 1 \/ 10 < serializers.quantity data) \/
                serializers.Event_objects_get (db w) (serializers.event_id data) = None \/
                (exists event,
                    serializers.Event_objects_get (db w) (serializers.event_id data)
                    = Some event /\ Event.is_active event = false)) :
  exists err,
    views.TicketViewSet_create env user data w = (Raise (ValidationError err), w) /\
    (err = QuantityBelowMin \/ err = QuantityAboveMax \/
     err = EventNotFound \/ err = EventNotActive).
Proof.
  unfold views.TicketViewSet_create, serializers.TicketPurchaseSerializer_is_valid,
    serializers.validate_quantity.
  destruct (Z.ltb_spec (serializers.quantity data) 1) as [Hlo|Hlo].
  { exists QuantityBelowMin. by auto. }
  destruct (Z.ltb_spec 10 (serializers.quantity data)) as [Hhi|Hhi].
  { exists QuantityAboveMax. by auto. }
  run_monad. unfold serializers.TicketPurchaseSerializer_validate.
  destruct Hbad as [Hq | [Hnone | (event & Hsome & Hinactive)]]; [lia| |].
  - rewrite Hnone. exists EventNotFound. by auto.
  - rewrite Hsome, Hinactive. exists EventNotActive. by auto.
Qed.

Lemma create_rejects_invalid_request_witness :
  let w := sample_world (sample_event (Some 20030) 68400 2000 10) [] in
  exists err,
    views.TicketViewSet_create sample_env 7%positive
      (serializers.mkPurchase 1 11) w = (Raise (ValidationError err), w) /\
    (err = QuantityBelowMin \/ err = QuantityAboveMax \/
     err = EventNotFound \/ err = EventNotActive).
Proof.
  intros w.
  apply (create_rejects_invalid_request sample_env 7%positive
           (serializers.mkPurchase 1 11) w).
  left. right. simpl. lia.
Defined.

(** C1. On an active event with 10 seats left, a request for 3 seats
    does not succeed: [generate_qr_code_data] is handed a dictionary,
    reads [ticket.id] on it and raises [AttributeError] inside the atomic
    block, which rolls the decrement back, so the event keeps its 10
    seats and no ticket exists. *)
Theorem create_with_enough_seats_raises :
  let w := sample_world (sample_event (Some 20030) 68400 2000 10) [] in
  let after := views.TicketViewSet_create sample_env 7%positive
                 (serializers.mkPurchase 1 3) w in
  fst after = Raise (AttributeError "dict" "id") /\
  (Event.available_seats <$> events (db (snd after)) !! 1%positive) = Some 10 /\
  tickets (db (snd after)) = ∅.
Proof. vm_compute. repeat split; reflexivity. Qed.

(** C5. Two purchase requests of 6 seats each against an event with 10
    seats, served one after the other in either order: neither succeeds.
    Each raises the [AttributeError] of [generate_qr_code_data] inside its
    atomic block and is rolled back, so the event keeps its 10 seats (it is
    not oversold) and no ticket exists, where exactly one of the two
    should have succeeded. *)
Theorem two_purchases_both_raise :
  let w := sample_world (sample_event (Some 20030) 68400 2000 10) [] in
  let first := views.TicketViewSet_create sample_env 7%positive
                 (serializers.mkPurchase 1 6) w in
  let second := views.TicketViewSet_create sample_env 8%positive
                  (serializers.mkPurchase 1 6) (snd first) in
  let first' := views.TicketViewSet_create sample_env 8%positive
                  (serializers.mkPurchase 1 6) w in
  let second' := views.TicketViewSet_create sample_env 7%positive
                   (serializers.mkPurchase 1 6) (snd first') in
  (fst first = Raise (AttributeError "dict" "id") /\
   fst second = Raise (AttributeError "dict" "id") /\
   (Event.available_seats <$> events (db (snd second)) !! 1%positive) = Some 10 /\
   tickets (db (snd second)) = ∅) /\
  (fst first' = Raise (AttributeError "dict" "id") /\
   fst second' = Raise (AttributeError "dict" "id") /\
   (Event.available_seats <$> events (db (snd second')) !! 1%positive) = Some 10 /\
   tickets (db (snd second')) = ∅).
Proof. vm_compute. repeat split; reflexivity. Qed.

(** C6. The payload that [create] would store is built by the module
    function [generate_qr_code_data], which on a ticket gives eight
    entries and leaves out the event date, the event time, the total price
    and the status; the method [Ticket.generate_qr_code_data] gives all
    twelve.  The request itself stops before any ticket is created. *)
Theorem purchase_qr_payload_entries :
  let sold := sample_ticket 2000 3 confirmed None 0 in
  let w := sample_world (sample_event (Some 20030) 68400 2000 7) [sold] in
  fst (views.TicketViewSet_create sample_env 7%positive
         (serializers.mkPurchase 1 3) w)
  = Raise (AttributeError "dict" "id") /\
  fst (serializers.generate_qr_code_data sample_env (serializers.PyTicket sold) w)
  = Return [ ("ticket_id", QStrOfId (Some 1%positive));
             ("reference_number", QStr "TKT-ABCDEFGH");
             ("event_id", QStrOfId (Some 1%positive));
             ("event_title", QStr "Concert");
             ("user_id", QStrOfId (Some 7%positive));
             ("quantity", QInt 3);
             ("purchase_date", QIso 1727000000);
             ("verified", QBool false) ]%string /\
  map fst (models.Ticket_generate_qr_code_data (db w) sold)
  = [ "ticket_id"; "reference_number"; "event_id"; "event_title";
      "event_date"; "event_time"; "user_id"; "quantity"; "total_price";
      "purchase_date"; "status"; "verified" ]%string.
Proof. vm_compute. repeat split; reflexivity. Qed.

(** ** Cancellation *)

Section Presave.
Variable env : Env.
Variable d : DB.
Variable y : Ticket.t.

Lemma presave_keeps :
  Ticket.pk (models.Ticket_presave env d y) = Ticket.pk y /\
  Ticket.status (models.Ticket_presave env d y) = Ticket.status y /\
  Ticket.quantity (models.Ticket_presave env d y) = Ticket.quantity y /\
  Ticket.user_id (models.Ticket_presave env d y) = Ticket.user_id y /\
  Ticket.event_id (models.Ticket_presave env d y) = Ticket.event_id y /\
  Ticket.price (models.Ticket_presave env d y) = saved_price d y.
Proof.
  unfold models.Ticket_presave, saved_price.
  destruct (models.related_event d y) as [e|];
    [destruct (Ticket.price y =? 0)|];
    destruct y as [? ? ? ? [?|] ? [] ? ? [?|] [?|] ?]; simpl; done.
Qed.

Lemma presave_first_cancellation :
  Ticket.status y = cancelled -> Ticket.cancelled_date y = None ->
  Ticket.cancelled_date (models.Ticket_presave env d y) = Some (clock env) /\
  Ticket.refund_amount (models.Ticket_presave env d y)
  = saved_price d y * Ticket.quantity y.
Proof.
  unfold models.Ticket_presave, saved_price. intros Hst Hcd.
  destruct (models.related_event d y) as [e|];
    [destruct (Ticket.price y =? 0)|];
    destruct y as [? ? ? ? [?|] ? [] ? ? [?|] [?|] ?]; simpl in *; done.
Qed.

Lemma presave_later_cancellation (c : Z) :
  Ticket.cancelled_date y = Some c ->
  Ticket.cancelled_date (models.Ticket_presave env d y) = Some c /\
  Ticket.refund_amount (models.Ticket_presave env d y) = Ticket.refund_amount y.
Proof.
  unfold models.Ticket_presave. intros Hcd.
  destruct (models.related_event d y) as [e|];
    [destruct (Ticket.price y =? 0)|];
    destruct y as [? ? ? ? [?|] ? [] ? ? [?|] [?|] ?]; simpl in *; done.
Qed.
End Presave.

(** [Ticket.save] laid out: the reference loop when the ticket has no
    reference number, then the adjusted row written under its key. *)
Lemma Ticket_save_run (env : Env) (x : Ticket.t) (w : World) :
  models.Ticket_save env x w =
  if models.no_reference x
  then match reference_loop (rng env) (tickets (db w)) (fuel env) (cursor w) with
       | Some (ref, pos) =>
           models.Ticket_store env
             (models.Ticket_presave env (db w)
                (Ticket.set_reference_number (Some ref) x))
             (mkWorld (db w) pos)
       | None => (OutOfFuel, w)
       end
  else models.Ticket_store env (models.Ticket_presave env (db w) x) w.
Proof.
  unfold models.Ticket_save, models.Ticket_generate_reference_number,
    run_reference_loop.
  destruct (models.no_reference x); run_monad; [|done].
  by destruct (reference_loop _ _ _ _) as [[ref pos]|].
Qed.

(** [cancel] laid out for a ticket of the requesting user that is not
    cancelled and has an event. *)
Lemma cancel_run (env : Env) (user pk : positive) (w : World)
      (x : Ticket.t) (i : positive) (e : Event.t) :
  tickets (db w) !! pk = Some x ->
  Ticket.user_id x = Some user ->
  Ticket.status x <> cancelled ->
  Ticket.event_id x = Some i ->
  events (db w) !! i = Some e ->
  views.TicketViewSet_cancel env user pk w =
  if cancel_too_late env e
  then (Return views.BadRequest_LessThan24Hours, w)
  else
    match Event.date e with
    | None => (Raise (IntegrityError "date"), w)
    | Some _ =>
        let e' := seats_restored i (Ticket.quantity x) e in
        let w1 := mkWorld (set_events (<[i := e']> (events (db w))) (db w))
                          (cursor w) in
        match models.Ticket_save env
                (Ticket.set_status cancelled (Ticket.set_pk (Some pk) x)) w1 with
        | (Return t', w2) =>
            (Return (views.CancelledOk (Ticket.price t' * Ticket.quantity t')), w2)
        | (Raise ex, w2) => (Raise ex, mkWorld (db w) (cursor w2))
        | (OutOfFuel, w2) => (OutOfFuel, mkWorld (db w) (cursor w2))
        end
    end.
Proof.
  intros Hx Hown Hst He Hev.
  unfold views.TicketViewSet_cancel, views.get_object. run_monad.
  rewrite Hx. unfold views.owned_by. rewrite bool_decide_eq_true_2 by done.
  simpl. rewrite bool_decide_eq_false_2 by done.
  unfold models.related_event, models.Event_load. simpl. rewrite He, Hev. simpl.
  unfold cancel_too_late.
  destruct (Event.date e) as [ed|] eqn:Hd.
  - destruct (ed - today env <? 1); [done|].
    unfold atomic, models.Event_save, models.Event_store, seats_restored.
    simpl. rewrite Hd. simpl.
    replace (Event.set_pk (Some i)
               (Event.set_available_seats
                  (Event.available_seats e + Ticket.quantity x)
                  (Event.set_pk (Some i) e)))
      with (Event.set_available_seats
              (Event.available_seats e + Ticket.quantity x)
              (Event.set_pk (Some i) e)) by reflexivity.
    match goal with
    | |- context [models.Ticket_save ?a ?b ?c] =>
        destruct (models.Ticket_save a b c) as [[t'|ex|] w2]
    end; reflexivity.
  - unfold atomic, models.Event_save, models.Event_store. simpl.
    rewrite Hd. by destruct w.
Qed.

(** A cancelled ticket is refused and nothing changes. *)
Lemma cancel_already_cancelled (env : Env) (user pk : positive) (w : World)
      (x : Ticket.t) :
  tickets (db w) !! pk = Some x ->
  Ticket.user_id x = Some user ->
  Ticket.status x = cancelled ->
  views.TicketViewSet_cancel env user pk w
  = (Return views.BadRequest_AlreadyCancelled, w).
Proof.
  intros Hx Hown Hst.
  unfold views.TicketViewSet_cancel, views.get_object. run_monad.
  rewrite Hx. unfold views.owned_by. rewrite bool_decide_eq_true_2 by done.
  simpl. by rewrite bool_decide_eq_true_2.
Qed.

(** What a successful [cancel] went through. *)
Lemma cancel_ok_inv (env : Env) (user pk : positive) (w w' : World)
      (x : Ticket.t) (refund : Z) :
  tickets (db w) !! pk = Some x ->
  views.TicketViewSet_cancel env user pk w
  = (Return (views.CancelledOk refund), w') ->
  Ticket.user_id x = Some user /\
  Ticket.status x <> cancelled /\
  exists i e, Ticket.event_id x = Some i /\ events (db w) !! i = Some e /\
              cancel_too_late env e = false.
Proof.
  intros Hx Hok.
  destruct (decide (Ticket.user_id x = Some user)) as [Hown|Hown]; cycle 1.
  { revert Hok. unfold views.TicketViewSet_cancel, views.get_object. run_monad.
    rewrite Hx. unfold views.owned_by. by rewrite bool_decide_eq_false_2. }
  destruct (decide (Ticket.status x = cancelled)) as [Hst|Hst].
  { by rewrite (cancel_already_cancelled env user pk w x) in Hok. }
  destruct (Ticket.event_id x) as [i|] eqn:He; cycle 1.
  { revert Hok. unfold views.TicketViewSet_cancel, views.get_object. run_monad.
    rewrite Hx. unfold views.owned_by. rewrite bool_decide_eq_true_2 by done.
    simpl. rewrite bool_decide_eq_false_2 by done.
    unfold models.related_event. simpl. by rewrite He. }
  destruct (events (db w) !! i) as [e|] eqn:Hev; cycle 1.
  { revert Hok. unfold views.TicketViewSet_cancel, views.get_object. run_monad.
    rewrite Hx. unfold views.owned_by. rewrite bool_decide_eq_true_2 by done.
    simpl. rewrite bool_decide_eq_false_2 by done.
    unfold models.related_event, models.Event_load. simpl.
    by rewrite He, Hev. }
  repeat split; try done. exists i, e. repeat split; try done.
  rewrite (cancel_run env user pk w x i e) in Hok by done.
  by destruct (cancel_too_late env e).
Qed.

(** A successful [cancel] saved the event, so the event has a date. *)
Lemma cancel_ok_date (env : Env) (user pk : positive) (w w' : World)
      (x : Ticket.t) (i : positive) (e : Event.t) (refund : Z) :
  tickets (db w) !! pk = Some x ->
  Ticket.event_id x = Some i ->
  events (db w) !! i = Some e ->
  views.TicketViewSet_cancel env user pk w
  = (Return (views.CancelledOk refund), w') ->
  exists day, Event.date e = Some day /\ today env + 1 <= day.
Proof.
  intros Hx He Hev Hok.
  destruct (cancel_ok_inv env user pk w w' x refund Hx Hok)
    as (Hown & Hst & i' & e' & He' & Hev' & Hlate).
  rewrite He in He'. injection He' as <-.
  rewrite Hev in Hev'. injection Hev' as <-.
  rewrite (cancel_run env user pk w x i e) in Hok by done.
  rewrite Hlate in Hok.
  destruct (Event.date e) as [day|] eqn:Hday; [|discriminate].
  exists day. split; [done|].
  unfold cancel_too_late in Hlate. rewrite Hday in Hlate.
  apply Z.ltb_ge in Hlate. lia.
Qed.

(** A [Ticket.save] that returns, on an instance that has a key: the row
    written is the adjusted instance, with a fresh reference number put
    in first when it had none, and with the purchase date stamped when the
    row was missing and the save was an insert. *)
Lemma Ticket_save_keyed (env : Env) (y : Ticket.t) (w w2 : World)
      (t' : Ticket.t) (pk : positive) :
  Ticket.pk y = Some pk ->
  models.Ticket_save env y w = (Return t', w2) ->
  exists y1,
    (y1 = y \/ exists ref, y1 = Ticket.set_reference_number (Some ref) y) /\
    ((is_Some (tickets (db w) !! pk) /\
      t' = models.Ticket_presave env (db w) y1) \/
     (tickets (db w) !! pk = None /\
      t' = Ticket.set_purchase_date (Some (clock env))
             (Ticket.set_pk (Some pk) (models.Ticket_presave env (db w) y1)))) /\
    db w2 = set_tickets (<[pk := t']> (tickets (db w))) (db w).
Proof.
  intros Hpk. rewrite Ticket_save_run.
  destruct (models.no_reference y).
  - destruct (reference_loop _ _ _ _) as [[ref pos]|]; [|discriminate].
    set (y1 := Ticket.set_reference_number (Some ref) y).
    destruct (presave_keeps env (db w) y1) as (Hk & _).
    unfold models.Ticket_store. simpl. rewrite Hk. simpl. rewrite Hpk.
    destruct (tickets (db w) !! pk) eqn:Hrow;
      intros [= <- <-]; exists y1; simpl; eauto 8.
  - destruct (presave_keeps env (db w) y) as (Hk & _).
    unfold models.Ticket_store. rewrite Hk, Hpk.
    destruct (tickets (db w) !! pk) eqn:Hrow;
      intros [= <- <-]; exists y; simpl; eauto 8.
Qed.

Lemma Ticket_save_ok (env : Env) (y : Ticket.t) (w w2 : World)
      (t' : Ticket.t) (pk : positive) :
  Ticket.pk y = Some pk ->
  is_Some (tickets (db w) !! pk) ->
  models.Ticket_save env y w = (Return t', w2) ->
  exists y1,
    (y1 = y \/ exists ref, y1 = Ticket.set_reference_number (Some ref) y) /\
    t' = models.Ticket_presave env (db w) y1 /\
    db w2 = set_tickets (<[pk := t']> (tickets (db w))) (db w).
Proof.
  intros Hpk Hrow Hsave.
  destruct (Ticket_save_keyed env y w w2 t' pk Hpk Hsave)
    as (y1 & Hy1 & [[_ Ht'] | [Hnone _]] & Hdb).
  - by exists y1.
  - rewrite Hnone in Hrow. by destruct Hrow.
Qed.

(** [Ticket.save] returns when [save_returns] holds. *)
Lemma Ticket_save_returns (env : Env) (y : Ticket.t) (w : World) :
  models.no_reference y = false \/
  (exists k, (k < fuel env)%nat /\
     reference_exists (tickets (db w))
       (candidate (rng env) (cursor w + 8 * k)%nat) = false) ->
  exists t' w2, models.Ticket_save env y w = (Return t', w2).
Proof.
  intros Hret. rewrite Ticket_save_run.
  destruct (models.no_reference y) eqn:Hno.
  - destruct Hret as [Hf | (k & Hk & Hfree)]; [discriminate|].
    destruct (reference_loop_returns _ _ _ _ k Hk Hfree) as (ref & pos & ->).
    unfold models.Ticket_store. eauto.
  - unfold models.Ticket_store. eauto.
Qed.

(** The state a successful [cancel] leaves. *)
Lemma cancel_done (env : Env) (user pk : positive) (w w' : World)
      (x : Ticket.t) (i : positive) (e : Event.t) (refund : Z) :
  tickets (db w) !! pk = Some x ->
  Ticket.user_id x = Some user ->
  Ticket.status x <> cancelled ->
  Ticket.event_id x = Some i ->
  events (db w) !! i = Some e ->
  views.TicketViewSet_cancel env user pk w
  = (Return (views.CancelledOk refund), w') ->
  exists x',
    events (db w') = <[i := seats_restored i (Ticket.quantity x) e]> (events (db w)) /\
    tickets (db w') = <[pk := x']> (tickets (db w)) /\
    Ticket.status x' = cancelled /\
    Ticket.quantity x' = Ticket.quantity x /\
    Ticket.user_id x' = Ticket.user_id x /\
    Ticket.price x'
    = (if Ticket.price x =? 0 then Event.price e else Ticket.price x) /\
    refund = Ticket.price x' * Ticket.quantity x /\
    (Ticket.cancelled_date x = None ->
     Ticket.cancelled_date x' = Some (clock env) /\
     Ticket.refund_amount x' = Ticket.price x' * Ticket.quantity x) /\
    (forall c, Ticket.cancelled_date x = Some c ->
     Ticket.cancelled_date x' = Some c /\
     Ticket.refund_amount x' = Ticket.refund_amount x).
Proof.
  intros Hx Hown Hst He Hev Hok.
  rewrite (cancel_run env user pk w x i e) in Hok by done.
  destruct (cancel_too_late env e); [discriminate|].
  destruct (Event.date e) as [day|] eqn:Hday; [|discriminate].
  cbv zeta in Hok.
  set (w1 := mkWorld _ _) in Hok.
  set (y := Ticket.set_status cancelled (Ticket.set_pk (Some pk) x)) in Hok.
  destruct (models.Ticket_save env y w1) as [[t'|ex|] w2] eqn:Hsave;
    [|discriminate..].
  injection Hok as <- <-.
  apply (Ticket_save_ok env y w1 w2 t' pk) in Hsave as (y1 & Hy1 & Ht' & Hdb);
    [|done|by (subst w1; simpl; eauto)].
  assert (Ticket.status y1 = cancelled /\
          Ticket.quantity y1 = Ticket.quantity x /\
          Ticket.user_id y1 = Ticket.user_id x /\
          Ticket.event_id y1 = Some i /\
          Ticket.price y1 = Ticket.price x /\
          Ticket.cancelled_date y1 = Ticket.cancelled_date x /\
          Ticket.refund_amount y1 = Ticket.refund_amount x)
    as (Hs1 & Hq1 & Hu1 & He1 & Hp1 & Hc1 & Hr1).
  { destruct Hy1 as [-> | [ref ->]]; simpl; by rewrite ?He. }
  assert (saved_price (db w1) y1
          = if Ticket.price x =? 0 then Event.price e else Ticket.price x)
    as Hsaved.
  { unfold saved_price, models.related_event, models.Event_load.
    rewrite He1. subst w1. simpl. rewrite lookup_insert_eq. simpl.
    by rewrite Hp1. }
  destruct (presave_keeps env (db w1) y1) as (_ & Hs & Hq & Hu & _ & Hp).
  rewrite <- Ht' in Hs, Hq, Hu, Hp.
  pose proof (presave_first_cancellation env (db w1) y1) as Hfirst.
  pose proof (presave_later_cancellation env (db w1) y1) as Hlater.
  rewrite <- Ht' in Hfirst, Hlater.
  exists t'. rewrite Hdb. subst w1. simpl.
  repeat split; try congruence.
  - destruct Hfirst as (Hcd & _); congruence.
  - destruct Hfirst as (_ & Hra); congruence.
  - destruct (Hlater c) as (Hcd & _); congruence.
  - destruct (Hlater c) as (_ & Hra); congruence.
Qed.

(** X28. A successful cancel request on a confirmed ticket with
    quantity q and unit price p gives q seats back to the event and sets
    the status to cancelled.  The unit price kept on the ticket is p, or
    the event's current price when p is zero, and the refund answered is
    that price times q.  When the ticket had no cancellation date, the
    date becomes the current time and the stored refund is that price
    times q; when it had one, date and stored refund stay as they were.
    A later cancel request on the same ticket is refused. *)
Theorem cancel_success_effects
        (env : Env) (user pk : positive) (w w' : World)
        (x : Ticket.t) (refund : Z)
        (Hx : tickets (db w) !! pk = Some x)
        (Hconf : Ticket.status x = confirmed)
        (Hok : views.TicketViewSet_cancel env user pk w
               = (Return (views.CancelledOk refund), w')) :
  exists i e x',
    Ticket.event_id x = Some i /\
    events (db w) !! i = Some e /\
    (Event.available_seats <$> events (db w') !! i)
    = Some (Event.available_seats e + Ticket.quantity x) /\
    tickets (db w') !! pk = Some x' /\
    Ticket.status x' = cancelled /\
    Ticket.quantity x' = Ticket.quantity x /\
    Ticket.price x'
    = (if Ticket.price x =? 0 then Event.price e else Ticket.price x) /\
    refund = Ticket.price x' * Ticket.quantity x /\
    (Ticket.cancelled_date x = None ->
     Ticket.cancelled_date x' = Some (clock env) /\
     Ticket.refund_amount x' = Ticket.price x' * Ticket.quantity x) /\
    (forall c, Ticket.cancelled_date x = Some c ->
     Ticket.cancelled_date x' = Some c /\
     Ticket.refund_amount x' = Ticket.refund_amount x) /\
    (forall env2,
        views.TicketViewSet_cancel env2 user pk w'
        = (Return views.BadRequest_AlreadyCancelled, w')).
Proof.
  destruct (cancel_ok_inv env user pk w w' x refund Hx Hok)
    as (Hown & Hst & i & e & He & Hev & _).
  destruct (cancel_done env user pk w w' x i e refund Hx Hown Hst He Hev Hok)
    as (x' & Hevents & Htickets & Hs & Hq & Hu & Hp & Hrefund & Hfirst & Hlater).
  exists i, e, x'.
  assert (tickets (db w') !! pk = Some x') as Hx'
    by (rewrite Htickets; apply lookup_insert_eq).
  repeat split; try done.
  - rewrite Hevents, lookup_insert_eq. reflexivity.
  - by apply Hfirst.
  - by apply Hfirst.
  - by apply Hlater.
  - by apply (Hlater c).
  - intros env2. apply (cancel_already_cancelled env2 user pk w' x'); congruence.
Qed.

Lemma cancel_success_effects_witness :
  let x := sample_ticket 2000 3 confirmed None 0 in
  let w := sample_world (sample_event (Some 20030) 68400 2000 7) [x] in
  let w' := snd (views.TicketViewSet_cancel sample_env 7%positive 1%positive w) in
  exists i e x',
    Ticket.event_id x = Some i /\
    events (db w) !! i = Some e /\
    (Event.available_seats <$> events (db w') !! i)
    = Some (Event.available_seats e + Ticket.quantity x) /\
    tickets (db w') !! 1%positive = Some x' /\
    Ticket.status x' = cancelled /\
    Ticket.quantity x' = Ticket.quantity x /\
    Ticket.price x'
    = (if Ticket.price x =? 0 then Event.price e else Ticket.price x) /\
    6000 = Ticket.price x' * Ticket.quantity x /\
    (Ticket.cancelled_date x = None ->
     Ticket.cancelled_date x' = Some (clock sample_env) /\
     Ticket.refund_amount x' = Ticket.price x' * Ticket.quantity x) /\
    (forall c, Ticket.cancelled_date x = Some c ->
     Ticket.cancelled_date x' = Some c /\
     Ticket.refund_amount x' = Ticket.refund_amount x) /\
    (forall env2,
        views.TicketViewSet_cancel env2 7%positive 1%positive w'
        = (Return views.BadRequest_AlreadyCancelled, w')).
Proof.
  intros x w w'.
  apply (cancel_success_effects sample_env 7%positive 1%positive w w' x 6000).
  - vm_compute. reflexivity.
  - reflexivity.
  - vm_compute. reflexivity.
Defined.

(** C3. Two cancel requests that succeed and leave another refund or
    date than the method [Ticket.cancel] leaves on the same input.  A free
    ticket (unit price 0, quantity 2) whose event now costs 20.00: the
    request answers and stores a refund of 40.00, where [Ticket.cancel]
    stores 0, the price times the quantity.  A confirmed ticket that
    already carries a cancellation date: the request keeps that date, where
    [Ticket.cancel] stores the current time.  Seats and status are as they
    should be in all four runs. *)
Theorem cancel_departs_from_Ticket_cancel :
  let free := sample_ticket 0 2 confirmed None 0 in
  let w := sample_world (sample_event (Some 20030) 68400 2000 8) [free] in
  let after := views.TicketViewSet_cancel sample_env 7%positive 1%positive w in
  let sibling := models.Ticket_cancel sample_env free None w in
  let again := sample_ticket 2000 3 confirmed (Some 1700000000) 6000 in
  let w2 := sample_world (sample_event (Some 20030) 68400 2000 7) [again] in
  let after2 := views.TicketViewSet_cancel sample_env 7%positive 1%positive w2 in
  let sibling2 := models.Ticket_cancel sample_env again None w2 in
  (Ticket.price free * Ticket.quantity free = 0 /\
   fst after = Return (views.CancelledOk 4000) /\
   (Ticket.refund_amount <$> tickets (db (snd after)) !! 1%positive) = Some 4000 /\
   (Event.available_seats <$> events (db (snd after)) !! 1%positive) = Some 10 /\
   (exists t, fst sibling = Return (true, t)) /\
   (Ticket.refund_amount <$> tickets (db (snd sibling)) !! 1%positive) = Some 0 /\
   (Ticket.status <$> tickets (db (snd sibling)) !! 1%positive) = Some cancelled /\
   (Event.available_seats <$> events (db (snd sibling)) !! 1%positive) = Some 10) /\
  (clock sample_env = 1728072000 /\
   fst after2 = Return (views.CancelledOk 6000) /\
   (Ticket.cancelled_date <$> tickets (db (snd after2)) !! 1%positive)
   = Some (Some 1700000000) /\
   (exists t, fst sibling2 = Return (true, t)) /\
   (Ticket.cancelled_date <$> tickets (db (snd sibling2)) !! 1%positive)
   = Some (Some 1728072000) /\
   (Ticket.refund_amount <$> tickets (db (snd sibling2)) !! 1%positive)
   = Some 6000).
Proof.
  repeat split; try (vm_compute; reflexivity);
    eexists; vm_compute; reflexivity.
Qed.




(** The window test of [cancel] looks at dates only: it lets the request
    through exactly when the event has no date or its date is at least
    one day after today's. *)
Lemma cancel_too_late_false (env : Env) (e : Event.t) :
  cancel_too_late env e = false <->
  forall event_date, Event.date e = Some event_date -> today env + 1 <= event_date.
Proof.
  unfold cancel_too_late. destruct (Event.date e) as [ed|].
  - destruct (Z.ltb_spec (ed - today env) 1); split; try done.
    + intros H'. specialize (H' ed eq_refl). lia.
    + intros _ event_date [= <-]. lia.
  - split; [intros _ ? [=]|done].
Qed.

(** More than 24 hours before the event the date test lets the request
    through, for a time zone not behind UTC. *)
Lemma cancel_allowed_beyond_24_hours (env : Env) (e : Event.t) (day : Z) :
  Event.date e = Some day ->
  Event.time e < seconds_per_day ->
  0 <= tz_offset env ->
  24 * 60 * 60 < models.event_datetime env day e - clock env ->
  cancel_too_late env e = false.
Proof.
  intros Hdate Htime Htz Hfar. apply cancel_too_late_false.
  intros event_date Hd. rewrite Hdate in Hd. injection Hd as <-.
  unfold models.event_datetime, today, seconds_per_day in *.
  pose proof (Z.mul_div_le (clock env) 86400 ltac:(lia)). lia.
Qed.

(** [Ticket.can_be_cancelled] is the 24-hour rule on instants. *)
Lemma Ticket_can_be_cancelled_true (env : Env) (d : DB) (x : Ticket.t) :
  models.Ticket_can_be_cancelled env d x = true <->
  Ticket.status x = confirmed /\
  exists e day, models.related_event d x = Some e /\ Event.date e = Some day /\
                24 * 60 * 60 < models.event_datetime env day e - clock env.
Proof.
  unfold models.Ticket_can_be_cancelled.
  destruct (decide (Ticket.status x = confirmed)) as [Hc|Hc].
  - rewrite bool_decide_eq_true_2 by done. simpl.
    destruct (models.related_event d x) as [e|].
    + destruct (Event.date e) as [day|] eqn:Hd.
      * rewrite Z.ltb_lt. split.
        -- intros Hlt. split; [done|]. by exists e, day.
        -- intros (_ & e' & day' & [= <-] & Hd' & Hlt). congruence.
      * split; [done|]. intros (_ & e' & day' & [= <-] & Hd' & _). congruence.
    + split; [done|]. by intros (_ & e' & day' & [=] & _).
  - rewrite bool_decide_eq_false_2 by done. simpl. split; [done|]. by intros [? _].
Qed.

(** [Ticket.cancel] refuses, and changes nothing, whenever
    [can_be_cancelled] is false; so for every ticket that is not
    confirmed. *)
Lemma Ticket_cancel_refused (env : Env) (x : Ticket.t) (r : option Z) (w : World) :
  models.Ticket_can_be_cancelled env (db w) x = false ->
  models.Ticket_cancel env x r w = (Return (false, x), w).
Proof.
  intros Hno. unfold models.Ticket_cancel. run_monad. by rewrite Hno.
Qed.


(** C2. A confirmed ticket whose event starts 23 hours from now, on the
    next calendar day: [can_be_cancelled] is false, yet the cancel request
    succeeds, because [cancel] compares dates and not instants; the event
    gets its three seats back and the ticket becomes cancelled. *)
Theorem cancel_23_hours_before_event_succeeds :
  let e := sample_event (Some 20001) 68400 2000 7 in
  let x := sample_ticket 2000 3 confirmed None 0 in
  let w := sample_world e [x] in
  let after := views.TicketViewSet_cancel sample_env 7%positive 1%positive w in
  models.event_datetime sample_env 20001 e - clock sample_env = 23 * 60 * 60 /\
  models.Ticket_can_be_cancelled sample_env (db w) x = false /\
  fst after = Return (views.CancelledOk 6000) /\
  (Event.available_seats <$> events (db (snd after)) !! 1%positive) = Some 10 /\
  (Ticket.status <$> tickets (db (snd after)) !! 1%positive) = Some cancelled.
Proof. vm_compute. repeat split; reflexivity. Qed.

(** C4. A pending ticket of two seats, well before the event: the cancel
    request is not refused; it answers success, adds two seats to the
    event (5 becomes 7) and sets the ticket to cancelled, where
    [Ticket.cancel] refuses the same ticket and changes nothing. *)
Theorem cancel_pending_ticket_succeeds :
  let e := sample_event (Some 20030) 68400 2000 5 in
  let x := sample_ticket 2000 2 pending None 0 in
  let w := sample_world e [x] in
  let after := views.TicketViewSet_cancel sample_env 7%positive 1%positive w in
  fst after = Return (views.CancelledOk 4000) /\
  (Event.available_seats <$> events (db (snd after)) !! 1%positive) = Some 7 /\
  (Ticket.status <$> tickets (db (snd after)) !! 1%positive) = Some cancelled /\
  models.Ticket_cancel sample_env x None w = (Return (false, x), w).
Proof. vm_compute. repeat split; reflexivity. Qed.

(** ** Seats never go negative *)

(** [cancel] changes the tables only when it answers success. *)
Lemma cancel_changes_only_on_success (env : Env) (user pk : positive) (w : World) :
  (exists refund,
      fst (views.TicketViewSet_cancel env user pk w)
      = Return (views.CancelledOk refund)) \/
  db (snd (views.TicketViewSet_cancel env user pk w)) = db w.
Proof.
  unfold views.TicketViewSet_cancel, views.get_object. run_monad.
  destruct (tickets (db w) !! pk) as [x|]; [|by right].
  destruct (views.owned_by user x); [|by right]. simpl.
  destruct (bool_decide _); [by right|].
  destruct (models.related_event _ _) as [e|]; [|by right]. simpl.
  destruct (Event.date e) as [day|] eqn:Hd; cycle 1.
  { unfold atomic, models.Event_save, models.Event_store. simpl.
    destruct (Event.pk e); simpl; rewrite Hd; by right. }
  destruct (day - today env <? 1); [by right|].
  unfold atomic, models.Event_save, models.Event_store. simpl.
  destruct (Event.pk e); simpl; rewrite Hd; simpl;
    match goal with
    | |- context [models.Ticket_save ?a ?b ?c] =>
        destruct (models.Ticket_save a b c) as [[t'|ex|] w2]
    end; simpl; eauto.
Qed.

Lemma cancel_preserves_seats_nonneg (env : Env) (user pk : positive) (w : World) :
  seats_nonneg (db w) ->
  seats_nonneg (db (snd (views.TicketViewSet_cancel env user pk w))).
Proof.
  intros [Hev Htk].
  destruct (cancel_changes_only_on_success env user pk w) as [[refund Hok]|Hsame];
    [|by rewrite Hsame].
  destruct (views.TicketViewSet_cancel env user pk w) as [o w'] eqn:Hrun.
  simpl in *. subst o.
  destruct (tickets (db w) !! pk) as [x|] eqn:Hx; cycle 1.
  { revert Hrun. unfold views.TicketViewSet_cancel, views.get_object. run_monad.
    by rewrite Hx. }
  destruct (cancel_ok_inv env user pk w w' x refund Hx Hrun)
    as (Hown & Hst & i & e & He & Hevi & _).
  destruct (cancel_done env user pk w w' x i e refund Hx Hown Hst He Hevi Hrun)
    as (x' & Hevents & Htickets & _ & Hq & _).
  split.
  - intros j e'. rewrite Hevents, lookup_insert. case_decide.
    + intros [= <-]. unfold seats_restored. simpl.
      specialize (Hev i e Hevi). specialize (Htk pk x Hx). lia.
    + apply Hev.
  - intros j y. rewrite Htickets, lookup_insert. case_decide.
    + intros [= <-]. rewrite Hq. by apply (Htk pk x).
    + apply Htk.
Qed.

(** Whatever requests are served, from a database whose seat counters
    and quantities are non-negative, no seat counter becomes negative. *)
Lemma serve_preserves_seats_nonneg (rs : list request) (w : World) :
  seats_nonneg (db w) -> seats_nonneg (db (serve rs w)).
Proof.
  revert w. induction rs as [|r rs IH]; intros w Hw; [done|].
  apply IH. destruct r as [env user data|env user pk]; simpl.
  - by rewrite (proj1 (create_never_creates env user data w)).
  - by apply cancel_preserves_seats_nonneg.
Qed.

(** ** Stats *)

Section Rows.
Variables P Q : Ticket.t -> bool.

Lemma length_filter_count (l : list Ticket.t) :
  length (List.filter P l) = count_rows P l.
Proof.
  induction l as [|x l IH]; simpl; [done|].
  destruct (P x); simpl; by rewrite IH.
Qed.

Lemma count_rows_filter (l : list Ticket.t) :
  count_rows Q (List.filter P l) = count_rows (fun x => P x && Q x) l.
Proof.
  induction l as [|x l IH]; simpl; [done|].
  destruct (P x); simpl; by rewrite IH.
Qed.

Lemma total_rows_filter (l : list Ticket.t) :
  total_rows Q (List.filter P l) = total_rows (fun x => P x && Q x) l.
Proof.
  induction l as [|x l IH]; simpl; [done|].
  destruct (P x); simpl; by rewrite IH.
Qed.

Lemma count_rows_ext (l : list Ticket.t) :
  (forall x, P x = Q x) -> count_rows P l = count_rows Q l.
Proof.
  intros Heq. induction l as [|x l IH]; simpl; [done|].
  by rewrite Heq, IH.
Qed.
End Rows.

(** The running sum of the generator expression, from any start. *)
Lemma foldl_spent (l : list Ticket.t) (acc : Z) :
  foldl (fun a x => a + Ticket.price x * Ticket.quantity x) acc l
  = acc + total_rows (fun _ => true) l.
Proof.
  revert acc. induction l as [|x l IH]; intros acc; simpl; [lia|].
  rewrite IH. lia.
Qed.

Lemma sum_spent_filter (P : Ticket.t -> bool) (l : list Ticket.t) :
  views.sum_spent (List.filter P l) = total_rows P l.
Proof.
  unfold views.sum_spent. rewrite foldl_spent, total_rows_filter, Z.add_0_l.
  induction l as [|x l IH]; simpl; [done|].
  rewrite andb_true_r. destruct (P x); by rewrite IH.
Qed.

(** C9 (amended). The stats query changes nothing and answers, from the
    rows of the table as they are at the call: the number of the user's
    tickets of any status; the number of the user's confirmed tickets
    whose event date is today or later; the sum of price times quantity
    over the user's confirmed tickets. *)
Theorem stats_counts (env : Env) (user : positive) (w : World) :
  views.TicketViewSet_stats env user w
  = (Return (views.StatsOk
               (spec_total_tickets (db w) user)
               (spec_upcoming_from_today (db w) (today env) user)
               (spec_total_spent (db w) user)), w).
Proof.
  unfold views.TicketViewSet_stats, views.get_queryset. run_monad.
  unfold spec_total_tickets, spec_upcoming_from_today, spec_total_spent.
  rewrite !length_filter_count, count_rows_filter.
  rewrite sum_spent_filter, total_rows_filter.
  rewrite (count_rows_ext
             (fun x => views.owned_by user x
                       && (views.is_confirmed x
                           && views.event_date_gte (db w) (today env) x))
             (fun x => views.owned_by user x && views.is_confirmed x
                       && views.event_date_gte (db w) (today env) x));
    [reflexivity|].
  intros x. by rewrite andb_assoc.
Qed.

(** A confirmed ticket for an event dated today that began at 08:00, the
    clock showing 20:00: the event date is not in the future and the
    event itself is twelve hours old, yet the stats query counts the
    ticket as upcoming. *)
Lemma stats_upcoming_counterexample :
  let e := sample_event (Some 20000) 28800 2000 7 in
  let x := sample_ticket 2000 3 confirmed None 0 in
  let w := sample_world e [x] in
  fst (views.TicketViewSet_stats sample_env 7%positive w)
  = Return (views.StatsOk 1 1 6000) /\
  spec_upcoming_future (db w) (today sample_env) 7%positive = 0%nat /\
  today sample_env = 20000 /\
  clock sample_env - models.event_datetime sample_env 20000 e = 12 * 60 * 60.
Proof. vm_compute. repeat split; reflexivity. Qed.

(** * Further properties of the purchase and cancel requests *)

(** X1. A request for 1 to 10 seats of an existing, active event that has
    fewer seats left is refused by the serializer with the validation error
    that tells how many seats are left, and the whole state stays as it
    was. *)
Theorem create_refuses_insufficient_seats
        (env : Env) (user : positive)
        (data : serializers.PurchaseRequest) (w : World) (event : Event.t)
        (Hq : 1 <= serializers.quantity data <= 10)
        (Hget : serializers.Event_objects_get (db w) (serializers.event_id data)
                = Some event)
        (Hact : Event.is_active event = true)
        (Hlt : Event.available_seats event < serializers.quantity data) :
  views.TicketViewSet_create env user data w
  = (Raise (ValidationError (OnlySeatsAvailable (Event.available_seats event))), w).
Proof. by apply create_insufficient_seats. Qed.

Lemma create_refuses_insufficient_seats_witness :
  let e := sample_event (Some 20030) 68400 2000 7 in
  let w := sample_world e [] in
  views.TicketViewSet_create sample_env 7%positive (serializers.mkPurchase 1 8) w
  = (Raise (ValidationError (OnlySeatsAvailable 7)), w).
Proof.
  intros e w.
  apply (create_refuses_insufficient_seats sample_env 7%positive
           (serializers.mkPurchase 1 8) w e).
  - simpl. lia.
  - vm_compute. reflexivity.
  - reflexivity.
  - simpl. lia.
Defined.

(** X2. Whatever the request, [create] leaves both tables as they were
    and never answers with a created ticket: a request that passes
    validation ends in an exception (or in the reference loop) inside the
    atomic block, which rolls the seat decrement back. *)
Theorem create_changes_no_table
        (env : Env) (user : positive)
        (data : serializers.PurchaseRequest) (w : World) :
  db (snd (views.TicketViewSet_create env user data w)) = db w /\
  forall ticket,
    fst (views.TicketViewSet_create env user data w)
    <> Return (views.Created ticket).
Proof. apply create_never_creates. Qed.

(** With enough seats, an event that has a date and enough fuel for the
    two reference numbers, the exception is the [AttributeError] of
    [ticket.id] read on a dictionary. *)
Lemma create_valid_request_raises
      (env : Env) (user : positive)
      (data : serializers.PurchaseRequest) (w : World) (event : Event.t) :
  1 <= serializers.quantity data <= 10 ->
  serializers.Event_objects_get (db w) (serializers.event_id data) = Some event ->
  Event.is_active event = true ->
  serializers.quantity data <= Event.available_seats event ->
  fst (views.TicketViewSet_create env user data w) = OutOfFuel \/
  fst (views.TicketViewSet_create env user data w)
  = Raise (IntegrityError "date") \/
  fst (views.TicketViewSet_create env user data w)
  = Raise (AttributeError "dict" "id").
Proof.
  intros Hq Hget Hact Hle.
  unfold views.TicketViewSet_create, serializers.TicketPurchaseSerializer_is_valid,
    serializers.validate_quantity.
  destruct (Z.ltb_spec (serializers.quantity data) 1); [lia|].
  destruct (Z.ltb_spec 10 (serializers.quantity data)); [lia|].
  run_monad. unfold serializers.TicketPurchaseSerializer_validate.
  rewrite Hget, Hact. simpl.
  destruct (Z.ltb_spec (Event.available_seats event) (serializers.quantity data));
    [lia|].
  simpl. unfold atomic.
  destruct (Z.ltb_spec (Event.available_seats event) (serializers.quantity data));
    [lia|].
  run_monad.
  unfold models.Event_save, models.Event_store,
    serializers.generate_reference_number, run_reference_loop. simpl.
  destruct (Event.pk event) as [i|]; simpl;
    (destruct (Event.date event) as [day|]; simpl; [|by right; left]);
    (destruct (reference_loop _ _ _ _) as [[ref1 pos1]|]; [|by left]); simpl;
    (destruct (reference_loop _ _ _ _) as [[ref2 pos2]|];
     [by right; right|by left]).
Qed.

(** X3. Whatever purchase and cancel requests are served, in whatever
    order and with whatever clocks and draws, from a database whose seat
    counters and ticket quantities are non-negative, no seat counter and no
    quantity becomes negative. *)
Theorem seats_never_negative (rs : list request) (w : World)
        (Hw : seats_nonneg (db w)) :
  seats_nonneg (db (serve rs w)).
Proof. by apply serve_preserves_seats_nonneg. Qed.

Lemma sample_world_seats_nonneg :
  seats_nonneg
    (db (sample_world (sample_event (Some 20030) 68400 2000 7)
                      [sample_ticket 2000 3 confirmed None 0])).
Proof.
  split.
  - intros i e. simpl. intros H.
    apply lookup_singleton_Some in H as [_ <-]. simpl. lia.
  - intros i x. simpl. rewrite insert_empty. intros H.
    apply lookup_singleton_Some in H as [_ <-]. simpl. lia.
Defined.

Lemma seats_never_negative_witness :
  seats_nonneg
    (db (serve [Cancel sample_env 7%positive 1%positive;
                Purchase sample_env 7%positive (serializers.mkPurchase 1 3);
                Cancel sample_env 7%positive 1%positive]
               (sample_world (sample_event (Some 20030) 68400 2000 7)
                             [sample_ticket 2000 3 confirmed None 0]))).
Proof.
  apply (seats_never_negative
           [Cancel sample_env 7%positive 1%positive;
            Purchase sample_env 7%positive (serializers.mkPurchase 1 3);
            Cancel sample_env 7%positive 1%positive]).
  exact sample_world_seats_nonneg.
Defined.

(** X4. A cancel request on a ticket of the caller that is already
    cancelled is answered [Ticket already cancelled] and changes nothing,
    whatever the clock. *)
Theorem cancel_refuses_cancelled_ticket
        (env : Env) (user pk : positive) (w : World) (x : Ticket.t)
        (Hx : tickets (db w) !! pk = Some x)
        (Hown : Ticket.user_id x = Some user)
        (Hst : Ticket.status x = cancelled) :
  views.TicketViewSet_cancel env user pk w
  = (Return views.BadRequest_AlreadyCancelled, w).
Proof. by apply (cancel_already_cancelled env user pk w x). Qed.

Lemma cancel_refuses_cancelled_ticket_witness :
  let x := sample_ticket 2000 3 cancelled (Some 1700000000) 6000 in
  let w := sample_world (sample_event (Some 20030) 68400 2000 10) [x] in
  views.TicketViewSet_cancel sample_env 7%positive 1%positive w
  = (Return views.BadRequest_AlreadyCancelled, w).
Proof.
  intros x w.
  apply (cancel_refuses_cancelled_ticket sample_env 7%positive 1%positive w x).
  - vm_compute. reflexivity.
  - reflexivity.
  - reflexivity.
Defined.

(** X5. A cancel request for a key under which the caller has no ticket
    (no such row, or a row of another user) raises [Http404] and changes
    nothing: nobody cancels somebody else's ticket. *)
Theorem cancel_foreign_ticket_not_found
        (env : Env) (user pk : positive) (w : World)
        (Hforeign : forall x, tickets (db w) !! pk = Some x ->
                              Ticket.user_id x <> Some user) :
  views.TicketViewSet_cancel env user pk w = (Raise Http404, w).
Proof.
  unfold views.TicketViewSet_cancel, views.get_object. run_monad.
  destruct (tickets (db w) !! pk) as [x|] eqn:Hx; [|done].
  unfold views.owned_by. rewrite bool_decide_eq_false_2; [done|].
  by apply Hforeign.
Qed.

Lemma cancel_foreign_ticket_not_found_witness :
  let w := sample_world (sample_event (Some 20030) 68400 2000 7)
                        [sample_ticket 2000 3 confirmed None 0] in
  views.TicketViewSet_cancel sample_env 8%positive 1%positive w
  = (Raise Http404, w).
Proof.
  intros w.
  apply (cancel_foreign_ticket_not_found sample_env 8%positive 1%positive w).
  intros x. simpl. rewrite insert_empty. intros H.
  apply lookup_singleton_Some in H as [_ <-]. simpl. discriminate.
Defined.

(** X6. A cancel request on a ticket of the caller that is not cancelled
    and has no event (the foreign key is null) raises the [AttributeError]
    of [ticket.event.date] and changes nothing. *)
Theorem cancel_ticket_without_event_raises
        (env : Env) (user pk : positive) (w : World) (x : Ticket.t)
        (Hx : tickets (db w) !! pk = Some x)
        (Hown : Ticket.user_id x = Some user)
        (Hst : Ticket.status x <> cancelled)
        (Hnone : Ticket.event_id x = None) :
  views.TicketViewSet_cancel env user pk w
  = (Raise (AttributeError "NoneType" "date"), w).
Proof.
  unfold views.TicketViewSet_cancel, views.get_object. run_monad.
  rewrite Hx. unfold views.owned_by. rewrite bool_decide_eq_true_2 by done.
  simpl. rewrite bool_decide_eq_false_2 by done.
  unfold models.related_event. simpl. by rewrite Hnone.
Qed.

Lemma cancel_ticket_without_event_raises_witness :
  let x := Ticket.Build (Some 1%positive) "Loose Ticket" 2000 None
             (Some 7%positive) (Some 1727000000) confirmed 3
             (Some "TKT-ABCDEFGH"%string) None None 0 in
  let w := sample_world (sample_event (Some 20030) 68400 2000 7) [x] in
  views.TicketViewSet_cancel sample_env 7%positive 1%positive w
  = (Raise (AttributeError "NoneType" "date"), w).
Proof.
  intros x w.
  apply (cancel_ticket_without_event_raises sample_env 7%positive 1%positive w x).
  - vm_compute. reflexivity.
  - reflexivity.
  - discriminate.
  - reflexivity.
Defined.

(** X7. For a ticket of the caller that is not cancelled and has an
    event, the cancel request is answered [Cannot cancel ticket less than
    24 hours before event], with nothing changed, exactly when the event
    has a date and that date is today's or earlier: the test is on calendar
    days, whatever the times of day. *)
Theorem cancel_refused_exactly_by_date
        (env : Env) (user pk : positive) (w : World)
        (x : Ticket.t) (i : positive) (e : Event.t)
        (Hx : tickets (db w) !! pk = Some x)
        (Hown : Ticket.user_id x = Some user)
        (Hst : Ticket.status x <> cancelled)
        (He : Ticket.event_id x = Some i)
        (Hev : events (db w) !! i = Some e) :
  views.TicketViewSet_cancel env user pk w
  = (Return views.BadRequest_LessThan24Hours, w)
  <-> exists event_date, Event.date e = Some event_date /\ event_date <= today env.
Proof.
  rewrite (cancel_run env user pk w x i e) by done.
  unfold cancel_too_late.
  destruct (Event.date e) as [ed|].
  - destruct (Z.ltb_spec (ed - today env) 1) as [Hlt|Hge].
    + split; [|done]. intros _. exists ed. split; [done|lia].
    + split.
      * cbv zeta.
        match goal with
        | |- context [models.Ticket_save ?a ?b ?c] =>
            destruct (models.Ticket_save a b c) as [[t'|ex|] w2]
        end; discriminate.
      * intros (d & [= <-] & Hle). lia.
  - split; [discriminate|]. intros (d & [=] & _).
Qed.

Lemma cancel_refused_exactly_by_date_witness :
  let e := sample_event (Some 20000) 86340 2000 7 in
  let x := sample_ticket 2000 3 confirmed None 0 in
  let w := sample_world e [x] in
  views.TicketViewSet_cancel sample_env 7%positive 1%positive w
  = (Return views.BadRequest_LessThan24Hours, w)
  <-> exists event_date, Event.date e = Some event_date /\
                         event_date <= today sample_env.
Proof.
  intros e x w.
  apply (cancel_refused_exactly_by_date sample_env 7%positive 1%positive w x
           1%positive e).
  - vm_compute. reflexivity.
  - reflexivity.
  - discriminate.
  - reflexivity.
  - vm_compute. reflexivity.
Defined.

(** X8. More than 24 hours before the event (its time of day being a
    time of day and the time zone not behind UTC), a cancel request on a
    ticket of the caller that is not cancelled succeeds, provided
    [Ticket.save] returns. *)
Theorem cancel_succeeds_beyond_24_hours
        (env : Env) (user pk : positive) (w : World)
        (x : Ticket.t) (i : positive) (e : Event.t) (day : Z)
        (Hx : tickets (db w) !! pk = Some x)
        (Hown : Ticket.user_id x = Some user)
        (Hst : Ticket.status x <> cancelled)
        (He : Ticket.event_id x = Some i)
        (Hev : events (db w) !! i = Some e)
        (Hdate : Event.date e = Some day)
        (Htime : Event.time e < seconds_per_day)
        (Htz : 0 <= tz_offset env)
        (Hfar : 24 * 60 * 60 < models.event_datetime env day e - clock env)
        (Hret : save_returns env w x) :
  exists refund w',
    views.TicketViewSet_cancel env user pk w
    = (Return (views.CancelledOk refund), w').
Proof.
  rewrite (cancel_run env user pk w x i e) by done.
  rewrite (cancel_allowed_beyond_24_hours env e day) by done.
  rewrite Hdate. cbv zeta.
  destruct (Ticket_save_returns env
              (Ticket.set_status cancelled (Ticket.set_pk (Some pk) x))
              (mkWorld (set_events
                          (<[i := seats_restored i (Ticket.quantity x) e]>
                             (events (db w))) (db w)) (cursor w)))
    as (t' & w2 & Hsave); [exact Hret|].
  rewrite Hsave. eauto.
Qed.

Lemma cancel_succeeds_beyond_24_hours_witness :
  let e := sample_event (Some 20002) 0 2000 7 in
  let x := sample_ticket 2000 3 confirmed None 0 in
  let w := sample_world e [x] in
  exists refund w',
    views.TicketViewSet_cancel sample_env 7%positive 1%positive w
    = (Return (views.CancelledOk refund), w').
Proof.
  intros e x w.
  apply (cancel_succeeds_beyond_24_hours sample_env 7%positive 1%positive w x
           1%positive e 20002).
  - vm_compute. reflexivity.
  - reflexivity.
  - discriminate.
  - reflexivity.
  - vm_compute. reflexivity.
  - reflexivity.
  - reflexivity.
  - simpl. lia.
  - vm_compute. reflexivity.
  - left. vm_compute. reflexivity.
Defined.

(** X9. A cancel request is all or nothing: unless it answers success,
    both tables are exactly as they were, also when an exception or the
    reference loop stops it inside the atomic block after the event was
    saved. *)
Theorem cancel_all_or_nothing (env : Env) (user pk : positive) (w : World) :
  (exists refund,
      fst (views.TicketViewSet_cancel env user pk w)
      = Return (views.CancelledOk refund)) \/
  db (snd (views.TicketViewSet_cancel env user pk w)) = db w.
Proof. apply cancel_changes_only_on_success. Qed.

(** What the field adjustments of [Ticket.save] never touch: the title,
    the purchase date, the reference number, and a QR payload that is
    already there. *)
Lemma presave_frame (env : Env) (d : DB) (y : Ticket.t) :
  Ticket.title (models.Ticket_presave env d y) = Ticket.title y /\
  Ticket.purchase_date (models.Ticket_presave env d y) = Ticket.purchase_date y /\
  Ticket.reference_number (models.Ticket_presave env d y)
  = Ticket.reference_number y /\
  forall p, Ticket.qr_code_data y = Some p ->
            Ticket.qr_code_data (models.Ticket_presave env d y) = Some p.
Proof.
  unfold models.Ticket_presave.
  destruct (models.related_event d y) as [e|];
    [destruct (Ticket.price y =? 0)|];
    destruct y as [? ? ? ? [?|] ? [] ? ? [?|] [?|] ?]; simpl;
    repeat split; try done.
Qed.

(** [Ticket.save] of an instance that has a key, a row and a reference
    number. *)
Lemma Ticket_save_with_reference (env : Env) (y : Ticket.t) (w : World)
      (pk : positive) :
  Ticket.pk y = Some pk ->
  is_Some (tickets (db w) !! pk) ->
  models.no_reference y = false ->
  models.Ticket_save env y w
  = (Return (models.Ticket_presave env (db w) y),
     mkWorld (set_tickets
                (<[pk := models.Ticket_presave env (db w) y]> (tickets (db w)))
                (db w))
             (cursor w)).
Proof.
  intros Hpk [row Hrow] Hno. rewrite Ticket_save_run, Hno.
  destruct (presave_keeps env (db w) y) as (Hk & _).
  unfold models.Ticket_store. by rewrite Hk, Hpk, Hrow.
Qed.

(** X10. A successful cancel request touches one event row and one
    ticket row.  Of the event it changes the seat counter only: title,
    date, time, price, total seats and the active flag are as before.
    Every other event and every other ticket is as before. *)
Theorem cancel_touches_one_event_and_one_ticket
        (env : Env) (user pk : positive) (w w' : World)
        (x : Ticket.t) (refund : Z)
        (Hx : tickets (db w) !! pk = Some x)
        (Hok : views.TicketViewSet_cancel env user pk w
               = (Return (views.CancelledOk refund), w')) :
  exists i e e',
    Ticket.event_id x = Some i /\
    events (db w) !! i = Some e /\
    events (db w') !! i = Some e' /\
    (Event.title e' = Event.title e /\ Event.date e' = Event.date e /\
     Event.time e' = Event.time e /\ Event.price e' = Event.price e /\
     Event.total_seats e' = Event.total_seats e /\
     Event.is_active e' = Event.is_active e) /\
    (forall j, j <> i -> events (db w') !! j = events (db w) !! j) /\
    (forall j, j <> pk -> tickets (db w') !! j = tickets (db w) !! j).
Proof.
  destruct (cancel_ok_inv env user pk w w' x refund Hx Hok)
    as (Hown & Hst & i & e & He & Hev & _).
  destruct (cancel_done env user pk w w' x i e refund Hx Hown Hst He Hev Hok)
    as (x' & Hevents & Htickets & _).
  exists i, e, (seats_restored i (Ticket.quantity x) e).
  rewrite Hevents, Htickets. repeat split; try done.
  - apply lookup_insert_eq.
  - intros j Hj. by apply lookup_insert_ne.
  - intros j Hj. by apply lookup_insert_ne.
Qed.

Lemma cancel_touches_one_event_and_one_ticket_witness :
  let x := sample_ticket 2000 3 confirmed None 0 in
  let w := sample_world (sample_event (Some 20030) 68400 2000 7) [x] in
  let w' := snd (views.TicketViewSet_cancel sample_env 7%positive 1%positive w) in
  exists i e e',
    Ticket.event_id x = Some i /\
    events (db w) !! i = Some e /\
    events (db w') !! i = Some e' /\
    (Event.title e' = Event.title e /\ Event.date e' = Event.date e /\
     Event.time e' = Event.time e /\ Event.price e' = Event.price e /\
     Event.total_seats e' = Event.total_seats e /\
     Event.is_active e' = Event.is_active e) /\
    (forall j, j <> i -> events (db w') !! j = events (db w) !! j) /\
    (forall j, j <> 1%positive -> tickets (db w') !! j = tickets (db w) !! j).
Proof.
  intros x w w'.
  apply (cancel_touches_one_event_and_one_ticket sample_env 7%positive
           1%positive w w' x 6000).
  - vm_compute. reflexivity.
  - vm_compute. reflexivity.
Defined.

(** X11. A successful cancel request on a ticket that has a reference
    number and a QR payload keeps both, and keeps title and purchase date:
    the payload is not rebuilt, so it goes on carrying the status it was
    built with. *)
Theorem cancel_keeps_reference_and_payload
        (env : Env) (user pk : positive) (w w' : World)
        (x : Ticket.t) (refund : Z) (r : string) (p : qr_payload)
        (Hx : tickets (db w) !! pk = Some x)
        (Href : Ticket.reference_number x = Some r)
        (Hr : r <> ""%string)
        (Hqr : Ticket.qr_code_data x = Some p)
        (Hok : views.TicketViewSet_cancel env user pk w
               = (Return (views.CancelledOk refund), w')) :
  exists x',
    tickets (db w') !! pk = Some x' /\
    Ticket.status x' = cancelled /\
    Ticket.reference_number x' = Some r /\
    Ticket.qr_code_data x' = Some p /\
    Ticket.title x' = Ticket.title x /\
    Ticket.purchase_date x' = Ticket.purchase_date x.
Proof.
  destruct (cancel_ok_inv env user pk w w' x refund Hx Hok)
    as (Hown & Hst & i & e & He & Hev & Hlate).
  rewrite (cancel_run env user pk w x i e) in Hok by done.
  rewrite Hlate in Hok.
  destruct (Event.date e) as [day|]; [|discriminate]. cbv zeta in Hok.
  rewrite (Ticket_save_with_reference env _ _ pk) in Hok; cycle 1.
  { reflexivity. }
  { simpl. eauto. }
  { unfold models.no_reference. simpl. rewrite Href.
    by apply bool_decide_eq_false_2. }
  injection Hok as _ <-. simpl.
  eexists. split; [apply lookup_insert_eq|].
  match goal with
  | |- context [models.Ticket_presave ?a ?b ?c] =>
      destruct (presave_keeps a b c) as (_ & Hs & _);
      destruct (presave_frame a b c) as (Ht & Hp & Hrn & Hq)
  end.
  rewrite Hs, Ht, Hp, Hrn. repeat split; try done.
  by apply Hq.
Qed.

Lemma cancel_keeps_reference_and_payload_witness :
  let p := [("status", QStatus confirmed)]%string in
  let x := Ticket.Build (Some 1%positive) "Concert Ticket" 2000 (Some 1%positive)
             (Some 7%positive) (Some 1727000000) confirmed 3
             (Some "TKT-ABCDEFGH"%string) (Some p) None 0 in
  let w := sample_world (sample_event (Some 20030) 68400 2000 7) [x] in
  let w' := snd (views.TicketViewSet_cancel sample_env 7%positive 1%positive w) in
  exists x',
    tickets (db w') !! 1%positive = Some x' /\
    Ticket.status x' = cancelled /\
    Ticket.reference_number x' = Some "TKT-ABCDEFGH"%string /\
    Ticket.qr_code_data x' = Some p /\
    Ticket.title x' = Ticket.title x /\
    Ticket.purchase_date x' = Ticket.purchase_date x.
Proof.
  intros p x w w'.
  apply (cancel_keeps_reference_and_payload sample_env 7%positive 1%positive
           w w' x 6000 "TKT-ABCDEFGH"%string p).
  - vm_compute. reflexivity.
  - reflexivity.
  - discriminate.
  - reflexivity.
  - vm_compute. reflexivity.
Defined.

(** * The method [Ticket.cancel] *)




(** X13. [Ticket.cancel] returns [False] and changes nothing, whatever
    the refund override, for a ticket that is not confirmed, that has no
    event, whose event has no date, or whose event starts 24 hours from
    now or sooner. *)
Theorem Ticket_cancel_refuses
        (env : Env) (x : Ticket.t) (refund : option Z) (w : World)
        (Hno : Ticket.status x <> confirmed \/
               models.related_event (db w) x = None \/
               exists e, models.related_event (db w) x = Some e /\
                 (Event.date e = None \/
                  exists day, Event.date e = Some day /\
                    models.event_datetime env day e - clock env
                    <= 24 * 60 * 60)) :
  models.Ticket_cancel env x refund w = (Return (false, x), w).
Proof.
  apply Ticket_cancel_refused.
  destruct (models.Ticket_can_be_cancelled env (db w) x) eqn:Hcan; [|done].
  apply Ticket_can_be_cancelled_true in Hcan
    as (Hconf & e & day & Hrel & Hdate & Hfar).
  destruct Hno as [Hst | [Hnone | (e' & Hrel' & Hd)]]; [done|congruence|].
  rewrite Hrel in Hrel'. injection Hrel' as <-.
  destruct Hd as [Hd | (day' & Hd & Hnear)]; [congruence|].
  rewrite Hdate in Hd. injection Hd as <-. lia.
Qed.

Lemma Ticket_cancel_refuses_witness :
  let x := sample_ticket 2000 3 confirmed None 0 in
  let w := sample_world (sample_event (Some 20001) 68400 2000 7) [x] in
  models.Ticket_cancel sample_env x None w = (Return (false, x), w).
Proof.
  intros x w.
  apply (Ticket_cancel_refuses sample_env x None w).
  right. right. exists (sample_event (Some 20001) 68400 2000 7).
  split; [vm_compute; reflexivity|].
  right. exists 20001. split; [reflexivity|]. vm_compute. discriminate.
Defined.

(** * [Ticket.save] and [Event.save] *)

Lemma foldr_max_ge (l : list positive) (k j : positive) :
  In j (k :: l) -> (j <= foldr Pos.max k l)%positive.
Proof.
  induction l as [|a l IH]; simpl.
  - intros [<- | []]. lia.
  - intros [<- | [<- | Hin]].
    + assert (k <= foldr Pos.max k l)%positive by (apply IH; by left). lia.
    + lia.
    + assert (j <= foldr Pos.max k l)%positive by (apply IH; by right). lia.
Qed.

(** The key of the next insert is not in use. *)
Lemma next_pk_fresh {A} (m : gmap positive A) : m !! models.next_pk m = None.
Proof.
  destruct (m !! models.next_pk m) as [a|] eqn:Hl; [|done]. exfalso.
  apply elem_of_map_to_list in Hl. apply list_elem_of_In in Hl.
  apply (in_map fst) in Hl. unfold models.next_pk in Hl. simpl in Hl.
  destruct (map fst (map_to_list m)) as [|k keys]; [done|].
  apply foldr_max_ge in Hl. lia.
Qed.

(** [super().save()] of a ticket laid out: an update of the row under
    the key the instance has, or an insert, under the key of the instance
    or the next key, with the purchase date stamped. *)
Lemma Ticket_store_run (env : Env) (z : Ticket.t) (w : World) :
  exists k z',
    models.Ticket_store env z w
    = (Return z', mkWorld (set_tickets (<[k := z']> (tickets (db w))) (db w))
                          (cursor w)) /\
    Ticket.pk z' = Some k /\
    (((Ticket.pk z = Some k /\ is_Some (tickets (db w) !! k)) /\ z' = z) \/
     ((Ticket.pk z = None \/ Ticket.pk z = Some k) /\
      tickets (db w) !! k = None /\
      z' = Ticket.set_purchase_date (Some (clock env))
             (Ticket.set_pk (Some k) z))).
Proof.
  unfold models.Ticket_store. destruct (Ticket.pk z) as [k|] eqn:Hpk.
  - exists k. destruct (tickets (db w) !! k) as [row|] eqn:Hrow.
    + exists z. repeat split; [done|]. left. eauto.
    + eexists. repeat split. right. eauto.
  - exists (models.next_pk (tickets (db w))).
    rewrite next_pk_fresh. eexists. repeat split.
    right. split; [by left|]. by split.
Qed.

(** A reference number drawn by the loop is not the empty string. *)
Lemma candidate_not_empty (r : nat -> nat) (pos : nat) :
  candidate r pos <> ""%string.
Proof. unfold candidate. simpl. discriminate. Qed.

(** A [Ticket.save] that returns, in full: the reference number put in
    when missing, the adjusted fields, the row written by an update or by
    an insert. *)
Lemma Ticket_save_inv (env : Env) (y : Ticket.t) (w w' : World) (t' : Ticket.t) :
  models.Ticket_save env y w = (Return t', w') ->
  exists y1 k,
    ((models.no_reference y = false /\ y1 = y) \/
     (models.no_reference y = true /\
      exists ref, y1 = Ticket.set_reference_number (Some ref) y /\
                  ref <> ""%string /\
                  well_formed_reference ref = true /\
                  unused_reference (db w) ref)) /\
    models.no_reference y1 = false /\
    Ticket.pk t' = Some k /\
    (((Ticket.pk y = Some k /\ is_Some (tickets (db w) !! k)) /\
      t' = models.Ticket_presave env (db w) y1) \/
     ((Ticket.pk y = None \/ Ticket.pk y = Some k) /\
      tickets (db w) !! k = None /\
      t' = Ticket.set_purchase_date (Some (clock env))
             (Ticket.set_pk (Some k) (models.Ticket_presave env (db w) y1)))) /\
    db w' = set_tickets (<[k := t']> (tickets (db w))) (db w).
Proof.
  rewrite Ticket_save_run. destruct (models.no_reference y) eqn:Hno.
  - destruct (reference_loop _ _ _ _) as [[ref pos]|] eqn:Hloop; [|discriminate].
    apply reference_loop_sound in Hloop as (j & _ & Href & _ & Hfree & _).
    set (y1 := Ticket.set_reference_number (Some ref) y).
    destruct (Ticket_store_run env (models.Ticket_presave env (db w) y1)
                (mkWorld (db w) pos)) as (k & z' & -> & Hk & Hz').
    intros [= <- <-]. exists y1, k.
    destruct (presave_keeps env (db w) y1) as (Hpk & _).
    assert (ref <> ""%string) as Hne by (rewrite Href; apply candidate_not_empty).
    split; [|split; [|split; [|split]]]; try done.
    + right. split; [done|]. exists ref. repeat split; try done.
      * rewrite Href. apply candidate_well_formed.
      * exact (proj1 (reference_exists_false _ _) Hfree).
    + unfold models.no_reference. simpl. by apply bool_decide_eq_false_2.
    + simpl in Hz'. rewrite Hpk in Hz'. simpl in Hz'.
      destruct Hz' as [[? ->] | (? & ? & ->)]; [by left|by right].
  - destruct (Ticket_store_run env (models.Ticket_presave env (db w) y) w)
      as (k & z' & -> & Hk & Hz').
    intros [= <- <-]. exists y, k.
    destruct (presave_keeps env (db w) y) as (Hpk & _).
    split; [|split; [|split; [|split]]]; try done.
    + by left.
    + rewrite Hpk in Hz'.
      destruct Hz' as [[? ->] | (? & ? & ->)]; [by left|by right].
Qed.

Lemma set_price_same (t : Ticket.t) (p : Z) :
  p = Ticket.price t -> Ticket.set_price p t = t.
Proof. intros ->. by destruct t. Qed.

(** On a settled instance the adjustments change nothing. *)
Lemma presave_of_settled (env : Env) (d : DB) (t : Ticket.t) :
  settled d t -> models.Ticket_presave env d t = t.
Proof.
  intros (Hprice & Hqr & Hcd). unfold models.Ticket_presave.
  destruct (models.related_event d t) as [e|] eqn:Hrel.
  - assert ((if Ticket.price t =? 0
             then Ticket.set_price (Event.price e) t else t) = t) as ->.
    { destruct (Z.eqb_spec (Ticket.price t) 0) as [H0|]; [|done].
      apply set_price_same. rewrite H0. by apply Hprice. }
    destruct (Ticket.qr_code_data t) as [p|] eqn:Hq.
    + destruct (Ticket.status t) eqn:Hs; try done.
      destruct (Ticket.cancelled_date t) eqn:Hc; [done|]. by destruct Hcd.
    + destruct (Hqr eq_refl) as [|Hu]; [done|]. rewrite Hu.
      destruct (Ticket.status t) eqn:Hs; try done.
      destruct (Ticket.cancelled_date t) eqn:Hc; [done|]. by destruct Hcd.
  - destruct (Ticket.qr_code_data t) as [p|] eqn:Hq.
    + destruct (Ticket.status t) eqn:Hs; try done.
      destruct (Ticket.cancelled_date t) eqn:Hc; [done|]. by destruct Hcd.
    + destruct (Ticket.status t) eqn:Hs; try done.
      destruct (Ticket.cancelled_date t) eqn:Hc; [done|]. by destruct Hcd.
Qed.

(** The adjustments leave a settled instance. *)
Lemma presave_settles (env : Env) (d : DB) (y : Ticket.t) :
  settled d (models.Ticket_presave env d y).
Proof.
  assert (models.related_event d (models.Ticket_presave env d y)
          = models.related_event d y) as Hrel.
  { destruct (presave_keeps env d y) as (_ & _ & _ & _ & He & _).
    unfold models.related_event. by rewrite He. }
  unfold settled. rewrite Hrel.
  destruct (presave_keeps env d y) as (_ & Hs & _ & Hu & _ & Hp).
  rewrite Hp, Hu. unfold saved_price.
  split; [|split].
  - intros e He. rewrite He.
    destruct (Z.eqb_spec (Ticket.price y) 0); [done|]. by intros.
  - unfold models.Ticket_presave.
    destruct (models.related_event d y) as [e|]; [|by left].
    destruct (Ticket.user_id y) as [u|] eqn:Hu'; [|by right].
    destruct (Ticket.price y =? 0);
      destruct y as [? ? ? ? ? ? [] ? ? [?|] [?|] ?]; simpl in *;
      subst; simpl; done.
  - unfold models.Ticket_presave.
    destruct (models.related_event d y) as [e|];
      [destruct (Ticket.price y =? 0)|];
      destruct y as [? ? ? ? [?|] ? [] ? ? [?|] [?|] ?]; simpl; done.
Qed.

(** Being settled depends on the events table only, and neither on the
    key nor on the purchase date of the instance. *)
Lemma settled_stored (d d2 : DB) (t : Ticket.t) (k : option positive)
      (c : option Z) :
  events d2 = events d ->
  settled d t ->
  settled d2 t /\ settled d2 (Ticket.set_purchase_date c (Ticket.set_pk k t)).
Proof.
  intros Hev Hset.
  assert (forall z, models.related_event d2 z = models.related_event d z) as Hrel
    by (intros z; unfold models.related_event, models.Event_load; by rewrite Hev).
  unfold settled in *. rewrite !Hrel. split; [done|].
  by destruct t.
Qed.

(** X14. Saving again the instance that [Ticket.save] just returned
    changes nothing, whatever the clock of the second save: the reference
    number, the price, the QR payload, the cancellation date and the
    refund are written once. *)
Theorem Ticket_save_twice
        (env env2 : Env) (y : Ticket.t) (w w' : World) (t' : Ticket.t)
        (Hsave : models.Ticket_save env y w = (Return t', w')) :
  models.Ticket_save env2 t' w' = (Return t', w').
Proof.
  apply Ticket_save_inv in Hsave as (y1 & k & _ & Hno1 & Hk & Hshape & Hdb).
  assert (events (db w') = events (db w)) as Hev by (by rewrite Hdb).
  assert (models.no_reference t' = false /\ settled (db w') t') as (Hno & Hset).
  { pose proof (presave_settles env (db w) y1) as Hs.
    destruct (settled_stored (db w) (db w') _ (Some k) (Some (clock env)) Hev Hs)
      as (Hs1 & Hs2).
    destruct (presave_frame env (db w) y1) as (_ & _ & Hrn & _).
    unfold models.no_reference in *.
    destruct Hshape as [[_ ->] | (_ & _ & ->)]; simpl; by rewrite Hrn. }
  assert (is_Some (tickets (db w') !! k)) as Hrow
    by (rewrite Hdb; simpl; rewrite lookup_insert_eq; eauto).
  rewrite (Ticket_save_with_reference env2 t' w' k Hk Hrow Hno).
  rewrite (presave_of_settled env2 (db w') t' Hset).
  destruct w' as [d' c']. simpl in *. subst d'. simpl.
  by rewrite insert_insert_eq.
Qed.

Lemma Ticket_save_twice_witness :
  let y := Ticket.Build None "Concert Ticket" 0 (Some 1%positive)
             (Some 7%positive) None cancelled 2 None None None 0 in
  let w := sample_world (sample_event (Some 20030) 68400 2000 7)
                        [sample_ticket 2000 3 confirmed None 0] in
  exists t' w',
    models.Ticket_save sample_env y w = (Return t', w') /\
    models.Ticket_save sample_env t' w' = (Return t', w').
Proof.
  intros y w. eexists _, _. split.
  - vm_compute. reflexivity.
  - apply (Ticket_save_twice sample_env sample_env y w).
    vm_compute. reflexivity.
Defined.

(** X15. [Ticket.save] of an instance without key inserts it: the row
    goes under a key that was not in use, carries the current time as
    purchase date, and every row that was in the table is still there,
    unchanged; the events table is untouched. *)
Theorem Ticket_save_inserts_new_instance
        (env : Env) (y : Ticket.t) (w w' : World) (t' : Ticket.t)
        (Hnew : Ticket.pk y = None)
        (Hsave : models.Ticket_save env y w = (Return t', w')) :
  exists k,
    Ticket.pk t' = Some k /\
    tickets (db w) !! k = None /\
    tickets (db w') = <[k := t']> (tickets (db w)) /\
    events (db w') = events (db w) /\
    Ticket.purchase_date t' = Some (clock env) /\
    (forall j x, tickets (db w) !! j = Some x -> tickets (db w') !! j = Some x).
Proof.
  apply Ticket_save_inv in Hsave as (y1 & k & _ & _ & Hk & Hshape & Hdb).
  destruct Hshape as [[[Hpk _] _] | (_ & Hfree & Ht')]; [congruence|].
  exists k. rewrite Hdb. repeat split; try done.
  - by rewrite Ht'.
  - intros j x Hj. simpl. rewrite lookup_insert_ne; [done|congruence].
Qed.

Lemma Ticket_save_inserts_new_instance_witness :
  let y := Ticket.Build None "Concert Ticket" 2000 (Some 1%positive)
             (Some 7%positive) None confirmed 2 None None None 0 in
  let w := sample_world (sample_event (Some 20030) 68400 2000 7)
                        [sample_ticket 2000 3 confirmed None 0] in
  exists t' w',
    models.Ticket_save sample_env y w = (Return t', w') /\
    exists k,
      Ticket.pk t' = Some k /\
      tickets (db w) !! k = None /\
      tickets (db w') = <[k := t']> (tickets (db w)) /\
      events (db w') = events (db w) /\
      Ticket.purchase_date t' = Some (clock sample_env) /\
      (forall j x, tickets (db w) !! j = Some x -> tickets (db w') !! j = Some x).
Proof.
  intros y w. eexists _, _. split.
  - vm_compute. reflexivity.
  - apply (Ticket_save_inserts_new_instance sample_env y w).
    + reflexivity.
    + vm_compute. reflexivity.
Defined.

(** X16. After a [Ticket.save] that returns, the ticket has a non-empty
    reference number: the one it had, when it had one; otherwise a drawn
    one, of the form [TKT-] plus eight upper-case letters or digits, that
    no row of the table carried. *)
Theorem Ticket_save_gives_reference
        (env : Env) (y : Ticket.t) (w w' : World) (t' : Ticket.t)
        (Hsave : models.Ticket_save env y w = (Return t', w')) :
  exists r,
    Ticket.reference_number t' = Some r /\
    r <> ""%string /\
    (models.no_reference y = false -> Ticket.reference_number y = Some r) /\
    (models.no_reference y = true ->
     well_formed_reference r = true /\ unused_reference (db w) r).
Proof.
  apply Ticket_save_inv in Hsave as (y1 & k & Hy1 & _ & _ & Hshape & _).
  destruct (presave_frame env (db w) y1) as (_ & _ & Hrn & _).
  assert (Ticket.reference_number t' = Ticket.reference_number y1) as Ht'
    by (destruct Hshape as [[_ ->] | (_ & _ & ->)]; simpl; by rewrite Hrn).
  rewrite Ht'.
  destruct Hy1 as [[Hno ->] | (Hno & ref & -> & Hne & Hwf & Hun)].
  - unfold models.no_reference in Hno.
    destruct (Ticket.reference_number y) as [r|] eqn:Hr; [|discriminate].
    exists r. apply bool_decide_eq_false in Hno.
    split; [done|]. split; [done|]. split; [done|].
    unfold models.no_reference. rewrite Hr. intros Habs.
    apply bool_decide_eq_true in Habs. done.
  - exists ref. simpl. repeat split; try done; congruence.
Qed.

Lemma Ticket_save_gives_reference_witness :
  let y := Ticket.Build None "Concert Ticket" 2000 (Some 1%positive)
             (Some 7%positive) None confirmed 2 None None None 0 in
  let w := sample_world (sample_event (Some 20030) 68400 2000 7)
                        [sample_ticket 2000 3 confirmed None 0] in
  exists t' w',
    models.Ticket_save sample_env y w = (Return t', w') /\
    exists r,
      Ticket.reference_number t' = Some r /\
      r <> ""%string /\
      (models.no_reference y = false -> Ticket.reference_number y = Some r) /\
      (models.no_reference y = true ->
       well_formed_reference r = true /\ unused_reference (db w) r).
Proof.
  intros y w. eexists _, _. split.
  - vm_compute. reflexivity.
  - eapply (Ticket_save_gives_reference sample_env y w).
    vm_compute. reflexivity.
Defined.

(** X17. [Event.save] of an event that has a date: without key, the
    event is inserted under a key that was not in use, with all its seats
    available ([available_seats] becomes [total_seats]) and its other
    fields as given; with a key, that row is rewritten with the instance
    as it is, seat counter included.  An event without date is refused with
    [IntegrityError] and nothing is written. *)
Theorem Event_save_effects (e : Event.t) (w : World) :
  (forall day, Event.date e = Some day -> Event.pk e = None ->
   exists i e',
     models.Event_save e w
     = (Return e', mkWorld (set_events (<[i := e']> (events (db w))) (db w))
                           (cursor w)) /\
     events (db w) !! i = None /\
     Event.pk e' = Some i /\
     Event.available_seats e' = Event.total_seats e /\
     Event.total_seats e' = Event.total_seats e /\
     Event.title e' = Event.title e /\ Event.date e' = Event.date e /\
     Event.time e' = Event.time e /\ Event.price e' = Event.price e /\
     Event.is_active e' = Event.is_active e) /\
  (forall day i, Event.date e = Some day -> Event.pk e = Some i ->
     models.Event_save e w
     = (Return e, mkWorld (set_events (<[i := e]> (events (db w))) (db w))
                          (cursor w))) /\
  (Event.date e = None ->
   models.Event_save e w = (Raise (IntegrityError "date"), w)).
Proof.
  split; [|split].
  - intros day Hday Hnew. unfold models.Event_save, models.Event_store.
    destruct e as [pk0 ? d0 ? ? ? ? ?]. simpl in *. subst pk0 d0. simpl.
    eexists _, _. split; [reflexivity|].
    split; [apply next_pk_fresh|]. by repeat split.
  - intros day i Hday Hi. unfold models.Event_save, models.Event_store.
    destruct e as [pk0 ? d0 ? ? ? ? ?]. simpl in *. subst pk0 d0. reflexivity.
  - intros Hnone. unfold models.Event_save, models.Event_store.
    destruct e as [[i|] ? d0 ? ? ? ? ?]; simpl in *; subst d0; reflexivity.
Qed.

Lemma Event_save_effects_witness :
  let e := Event.Build None "Recital" (Some 20040) 72000 1500 50 0 true in
  let w := sample_world (sample_event (Some 20030) 68400 2000 7) [] in
  exists i e',
    models.Event_save e w
    = (Return e', mkWorld (set_events (<[i := e']> (events (db w))) (db w))
                          (cursor w)) /\
    events (db w) !! i = None /\
    Event.pk e' = Some i /\
    Event.available_seats e' = Event.total_seats e /\
    Event.total_seats e' = Event.total_seats e /\
    Event.title e' = Event.title e /\ Event.date e' = Event.date e /\
    Event.time e' = Event.time e /\ Event.price e' = Event.price e /\
    Event.is_active e' = Event.is_active e.
Proof.
  intros e w.
  apply (proj1 (Event_save_effects e w) 20040); reflexivity.
Defined.

(** * [upcoming] and the admin actions *)

Lemma all_tickets_In (d : DB) (x : Ticket.t) :
  In x (views.all_tickets d) <->
  exists k row, tickets d !! k = Some row /\ x = Ticket.set_pk (Some k) row.
Proof.
  unfold views.all_tickets. rewrite in_map_iff. split.
  - intros ([k row] & <- & Hin). exists k, row. split; [|done].
    apply elem_of_map_to_list. by apply list_elem_of_In.
  - intros (k & row & Hl & ->). exists (k, row). split; [done|].
    apply list_elem_of_In. by apply elem_of_map_to_list.
Qed.

Lemma filter_length_bound {A} (P : A -> bool) (l : list A) :
  (length (List.filter P l) <= length l)%nat.
Proof.
  induction l as [|a l IH]; simpl; [lia|]. destruct (P a); simpl; lia.
Qed.

(** The date filter of the views is [Event.is_upcoming] of the ticket's
    event. *)
Lemma event_date_gte_is_upcoming (d : DB) (day : Z) (x : Ticket.t) :
  views.event_date_gte d day x = true <->
  exists e, models.related_event d x = Some e /\ Event.is_upcoming day e = true.
Proof.
  unfold views.event_date_gte, Event.is_upcoming.
  destruct (models.related_event d x) as [e|].
  - split; [by exists e|]. by intros (e' & [= <-] & He').
  - split; [done|]. by intros (e' & [=] & _).
Qed.

(** X18. [upcoming] changes nothing and lists exactly the rows of the
    tickets table that belong to the caller, are confirmed and have an
    event that [Event.is_upcoming] holds of today (dated today or later);
    [stats] reports the length of that list as its upcoming count, and
    that count never exceeds its total count. *)
Theorem upcoming_lists_confirmed_upcoming (env : Env) (user : positive) (w : World) :
  exists l,
    TicketViewSet_upcoming env user w = (Return l, w) /\
    (forall x,
        In x l <->
        (exists k row, tickets (db w) !! k = Some row /\
                       x = Ticket.set_pk (Some k) row) /\
        Ticket.user_id x = Some user /\
        Ticket.status x = confirmed /\
        exists e, models.related_event (db w) x = Some e /\
                  Event.is_upcoming (today env) e = true) /\
    exists total spent,
      views.TicketViewSet_stats env user w
      = (Return (views.StatsOk total (length l) spent), w) /\
      (length l <= total)%nat.
Proof.
  eexists. split; [reflexivity|]. split.
  - intros x. unfold views.get_queryset. rewrite !filter_In, all_tickets_In.
    rewrite andb_true_iff, event_date_gte_is_upcoming.
    unfold views.owned_by, views.is_confirmed.
    rewrite !bool_decide_eq_true. tauto.
  - eexists _, _. split; [reflexivity|]. apply filter_length_bound.
Qed.

Lemma update_rows_lookup {A} (f : A -> A) (qs : gset positive)
      (m : gmap positive A) (k : positive) :
  admin.update_rows f qs m !! k
  = (fun x => if bool_decide (k ∈ qs) then f x else x) <$> m !! k.
Proof.
  unfold admin.update_rows. rewrite map_lookup_imap.
  by destruct (m !! k).
Qed.

(** X19. The admin action [cancel_tickets] sets the status of the
    selected tickets to cancelled and does nothing else: the events table
    is as before, so no seat goes back; no cancellation date and no refund
    is written; the tickets not selected are as before.  A cancel request
    on a selected ticket is refused afterwards, so its seats never go
    back. *)
Theorem admin_cancel_tickets_restores_no_seats (qs : gset positive) (w : World) :
  let w' := snd (admin.cancel_tickets qs w) in
  fst (admin.cancel_tickets qs w) = Return tt /\
  events (db w') = events (db w) /\
  (forall k x, tickets (db w) !! k = Some x -> k ∈ qs ->
     tickets (db w') !! k = Some (Ticket.set_status cancelled x)) /\
  (forall k, k ∉ qs -> tickets (db w') !! k = tickets (db w) !! k) /\
  (forall env user k x,
      tickets (db w) !! k = Some x -> k ∈ qs ->
      Ticket.user_id x = Some user ->
      views.TicketViewSet_cancel env user k w'
      = (Return views.BadRequest_AlreadyCancelled, w')).
Proof.
  simpl.
  assert (forall k x, tickets (db w) !! k = Some x -> k ∈ qs ->
            admin.update_rows (Ticket.set_status cancelled) qs (tickets (db w)) !! k
            = Some (Ticket.set_status cancelled x)) as Hsel.
  { intros k x Hk Hin. rewrite update_rows_lookup, Hk. simpl.
    by rewrite bool_decide_eq_true_2. }
  repeat split; try done.
  - intros k Hk. rewrite update_rows_lookup.
    rewrite bool_decide_eq_false_2 by done. by destruct (tickets (db w) !! k).
  - intros env user k x Hk Hin Hu.
    apply (cancel_already_cancelled env user k _ (Ticket.set_status cancelled x));
      [by apply Hsel|done|done].
Qed.

(** The ticket a successful [cancel] leaves: still of the same event and
    user, with a reference number. *)
Lemma cancel_done_ticket (env : Env) (user pk : positive) (w w' : World)
      (x : Ticket.t) (i : positive) (e : Event.t) (refund : Z) :
  tickets (db w) !! pk = Some x ->
  Ticket.user_id x = Some user ->
  Ticket.status x <> cancelled ->
  Ticket.event_id x = Some i ->
  events (db w) !! i = Some e ->
  views.TicketViewSet_cancel env user pk w
  = (Return (views.CancelledOk refund), w') ->
  exists x',
    tickets (db w') !! pk = Some x' /\
    events (db w') !! i = Some (seats_restored i (Ticket.quantity x) e) /\
    Ticket.event_id x' = Some i /\
    Ticket.user_id x' = Some user /\
    Ticket.quantity x' = Ticket.quantity x /\
    models.no_reference x' = false.
Proof.
  intros Hx Hown Hst He Hev Hok.
  rewrite (cancel_run env user pk w x i e) in Hok by done.
  destruct (cancel_too_late env e); [discriminate|].
  destruct (Event.date e) as [day|] eqn:Hday; [|discriminate]. cbv zeta in Hok.
  set (w1 := mkWorld _ _) in Hok.
  set (y := Ticket.set_status cancelled (Ticket.set_pk (Some pk) x)) in Hok.
  destruct (models.Ticket_save env y w1) as [[t'|ex|] w2] eqn:Hsave;
    [|discriminate..].
  injection Hok as _ <-.
  apply Ticket_save_inv in Hsave as (y1 & k & Hy1 & Hno1 & Hk & Hshape & Hdb).
  assert (k = pk /\ t' = models.Ticket_presave env (db w1) y1) as [-> Ht'].
  { destruct Hshape as [[[Hpk _] Ht'] | ([Hpk|Hpk] & Hfree & _)].
    - by injection Hpk as <-.
    - discriminate.
    - injection Hpk as <-. subst w1. simpl in Hfree. congruence. }
  assert (Ticket.event_id y1 = Some i /\ Ticket.user_id y1 = Some user /\
          Ticket.quantity y1 = Ticket.quantity x) as (He1 & Hu1 & Hq1).
  { destruct Hy1 as [[_ ->] | (_ & ref & -> & _)]; simpl; by rewrite ?He, ?Hown. }
  destruct (presave_keeps env (db w1) y1) as (_ & _ & Hq & Hu & Hei & _).
  destruct (presave_frame env (db w1) y1) as (_ & _ & Hrn & _).
  rewrite <- Ht' in Hq, Hu, Hei, Hrn.
  exists t'. rewrite Hdb. subst w1. simpl.
  rewrite !lookup_insert_eq. repeat split; try congruence.
  unfold models.no_reference in *. by rewrite Hrn.
Qed.

(** X20. Seats go back once per successful cancel request, also for the
    same ticket: after a successful cancel, the admin action
    [confirm_tickets] on the ticket and a second cancel request that
    passes the date test, the second request succeeds too and the event
    has the ticket's quantity back twice. *)
Theorem cancel_reconfirm_cancel_restores_twice
        (env env2 : Env) (user pk : positive) (w w1 : World)
        (x : Ticket.t) (i : positive) (e : Event.t) (refund : Z)
        (qs : gset positive)
        (Hx : tickets (db w) !! pk = Some x)
        (He : Ticket.event_id x = Some i)
        (Hev : events (db w) !! i = Some e)
        (Hok : views.TicketViewSet_cancel env user pk w
               = (Return (views.CancelledOk refund), w1))
        (Hsel : pk ∈ qs)
        (Hlate2 : cancel_too_late env2 e = false) :
  exists refund2 w3,
    views.TicketViewSet_cancel env2 user pk (snd (admin.confirm_tickets qs w1))
    = (Return (views.CancelledOk refund2), w3) /\
    (Event.available_seats <$> events (db w3) !! i)
    = Some (Event.available_seats e + 2 * Ticket.quantity x).
Proof.
  destruct (cancel_ok_inv env user pk w w1 x refund Hx Hok)
    as (Hown & Hst & _).
  destruct (cancel_done_ticket env user pk w w1 x i e refund Hx Hown Hst He Hev Hok)
    as (x' & Hx' & Hev' & He' & Hu' & Hq' & Hno').
  set (w2 := snd (admin.confirm_tickets qs w1)).
  set (e' := seats_restored i (Ticket.quantity x) e) in *.
  set (x2 := Ticket.set_status confirmed x').
  assert (tickets (db w2) !! pk = Some x2) as Hx2.
  { subst w2. simpl. rewrite update_rows_lookup, Hx'. simpl.
    by rewrite bool_decide_eq_true_2. }
  assert (events (db w2) !! i = Some e') as Hev2 by done.
  pose proof (cancel_run env2 user pk w2 x2 i e' Hx2 Hu' ltac:(done) He' Hev2)
    as Hrun.
  replace (cancel_too_late env2 e') with false in Hrun by (by rewrite <- Hlate2).
  destruct (cancel_ok_date env user pk w w1 x i e refund Hx He Hev Hok)
    as (day & Hday & _).
  replace (Event.date e') with (Some day) in Hrun by (by rewrite <- Hday).
  cbv zeta in Hrun.
  destruct (Ticket_save_returns env2
              (Ticket.set_status cancelled (Ticket.set_pk (Some pk) x2))
              (mkWorld (set_events
                          (<[i := seats_restored i (Ticket.quantity x2) e']>
                             (events (db w2))) (db w2)) (cursor w2)))
    as (t' & w3 & Hsave); [by left|].
  rewrite Hsave in Hrun.
  destruct (cancel_done env2 user pk w2 w3 x2 i e' _ Hx2 Hu' ltac:(done) He' Hev2 Hrun)
    as (x3 & Hevents & _).
  eexists _, w3. split; [exact Hrun|].
  rewrite Hevents, lookup_insert_eq. simpl. f_equal.
  subst x2. simpl. rewrite Hq'. lia.
Qed.

Lemma cancel_reconfirm_cancel_restores_twice_witness :
  let x := sample_ticket 2000 3 confirmed None 0 in
  let e := sample_event (Some 20030) 68400 2000 4 in
  let w := sample_world e [x] in
  let w1 := snd (views.TicketViewSet_cancel sample_env 7%positive 1%positive w) in
  exists refund2 w3,
    views.TicketViewSet_cancel sample_env 7%positive 1%positive
      (snd (admin.confirm_tickets {[ 1%positive ]} w1))
    = (Return (views.CancelledOk refund2), w3) /\
    (Event.available_seats <$> events (db w3) !! 1%positive)
    = Some (Event.available_seats e + 2 * Ticket.quantity x).
Proof.
  intros x e w w1.
  apply (cancel_reconfirm_cancel_restores_twice sample_env sample_env 7%positive
           1%positive w w1 x 1%positive e 6000 {[ 1%positive ]}).
  - vm_compute. reflexivity.
  - reflexivity.
  - vm_compute. reflexivity.
  - vm_compute. reflexivity.
  - set_solver.
  - vm_compute. reflexivity.
Defined.



(** * More on [create], the QR payloads and [stats] *)

(** X22. Served on its own, [create] never gives the answer of its seat
    check inside the atomic block: a request with too few seats was
    refused by the serializer before, and between the two checks nothing
    changes the event. *)
Theorem create_inner_seat_check_never_answers
        (env : Env) (user : positive)
        (data : serializers.PurchaseRequest) (w : World) (n : Z) :
  fst (views.TicketViewSet_create env user data w)
  <> Return (views.BadRequest_OnlySeats n).
Proof.
  unfold views.TicketViewSet_create, serializers.TicketPurchaseSerializer_is_valid.
  destruct (serializers.validate_quantity _); [by run_monad|].
  run_monad. unfold serializers.TicketPurchaseSerializer_validate.
  destruct (serializers.Event_objects_get _ _) as [event|]; [|by run_monad].
  destruct (negb (Event.is_active event)); [by run_monad|].
  destruct (Event.available_seats event <? serializers.quantity data) eqn:Hlt;
    [by run_monad|].
  run_monad. unfold atomic. rewrite Hlt. run_monad.
  unfold models.Event_save, models.Event_store,
    serializers.generate_reference_number, run_reference_loop. simpl.
  destruct (Event.pk event) as [i|]; simpl;
    (destruct (Event.date event) as [day|]; simpl; [|done]);
    (destruct (reference_loop _ _ _ _) as [[ref1 pos1]|]; [|by simpl]); simpl;
    (destruct (reference_loop _ _ _ _) as [[ref2 pos2]|]; by simpl).
Qed.

(** X23. On a ticket that has an event, a user and a purchase date, the
    module function [generate_qr_code_data] changes nothing and returns
    eight entries, each of which is an entry of the payload of the method
    [Ticket.generate_qr_code_data] for the same ticket, [verified] false
    among them. *)
Theorem qr_payloads_agree
        (env : Env) (w : World) (x : Ticket.t) (e : Event.t)
        (u : positive) (p : Z)
        (Hrel : models.related_event (db w) x = Some e)
        (Hu : Ticket.user_id x = Some u)
        (Hpd : Ticket.purchase_date x = Some p) :
  exists payload,
    serializers.generate_qr_code_data env (serializers.PyTicket x) w
    = (Return payload, w) /\
    map fst payload
    = [ "ticket_id"; "reference_number"; "event_id"; "event_title";
        "user_id"; "quantity"; "purchase_date"; "verified" ]%string /\
    In ("verified"%string, QBool false) payload /\
    forall kv, In kv payload ->
               In kv (models.Ticket_generate_qr_code_data (db w) x).
Proof.
  unfold serializers.generate_qr_code_data, models.Ticket_generate_qr_code_data.
  run_monad. rewrite Hrel, Hu, Hpd. run_monad.
  eexists. split; [reflexivity|]. split; [reflexivity|]. split.
  - simpl. tauto.
  - intros kv Hin. simpl in Hin. simpl.
    repeat (destruct Hin as [<- | Hin]; [tauto|]). done.
Qed.

Lemma qr_payloads_agree_witness :
  let x := sample_ticket 2000 3 confirmed None 0 in
  let e := sample_event (Some 20030) 68400 2000 7 in
  let w := sample_world e [x] in
  exists payload,
    serializers.generate_qr_code_data sample_env (serializers.PyTicket x) w
    = (Return payload, w) /\
    map fst payload
    = [ "ticket_id"; "reference_number"; "event_id"; "event_title";
        "user_id"; "quantity"; "purchase_date"; "verified" ]%string /\
    In ("verified"%string, QBool false) payload /\
    forall kv, In kv payload ->
               In kv (models.Ticket_generate_qr_code_data (db w) x).
Proof.
  intros x e w.
  apply (qr_payloads_agree sample_env w x e 7%positive 1727000000).
  - vm_compute. reflexivity.
  - reflexivity.
  - reflexivity.
Defined.

(** X24. On a ticket without event or without user the module function
    [generate_qr_code_data] raises [AttributeError] and changes nothing,
    as it does on a dictionary; the method [Ticket.generate_qr_code_data]
    fills such entries with the empty string instead. *)
Theorem generate_qr_code_data_raises_without_event_or_user
        (env : Env) (w : World) (x : Ticket.t)
        (Hmiss : models.related_event (db w) x = None \/
                 Ticket.user_id x = None) :
  serializers.generate_qr_code_data env (serializers.PyTicket x) w
  = (Raise (AttributeError "NoneType" "id"), w) /\
  (models.related_event (db w) x = None ->
   In ("event_id"%string, QStr "")
      (models.Ticket_generate_qr_code_data (db w) x)) /\
  (Ticket.user_id x = None ->
   In ("user_id"%string, QStr "")
      (models.Ticket_generate_qr_code_data (db w) x)).
Proof.
  unfold serializers.generate_qr_code_data, models.Ticket_generate_qr_code_data.
  run_monad. split; [|split].
  - destruct (models.related_event (db w) x) as [e|]; [|done].
    destruct Hmiss as [|Hu]; [done|]. by rewrite Hu.
  - intros ->. simpl. tauto.
  - intros ->. simpl. tauto.
Qed.

Lemma generate_qr_code_data_raises_without_event_or_user_witness :
  let x := Ticket.Build (Some 1%positive) "Loose Ticket" 2000 None
             (Some 7%positive) (Some 1727000000) confirmed 3
             (Some "TKT-ABCDEFGH"%string) None None 0 in
  let w := sample_world (sample_event (Some 20030) 68400 2000 7) [x] in
  serializers.generate_qr_code_data sample_env (serializers.PyTicket x) w
  = (Raise (AttributeError "NoneType" "id"), w) /\
  (models.related_event (db w) x = None ->
   In ("event_id"%string, QStr "")
      (models.Ticket_generate_qr_code_data (db w) x)) /\
  (Ticket.user_id x = None ->
   In ("user_id"%string, QStr "")
      (models.Ticket_generate_qr_code_data (db w) x)).
Proof.
  intros x w.
  apply (generate_qr_code_data_raises_without_event_or_user sample_env w x).
  left. reflexivity.
Defined.

(** X25. A ticket that [Ticket.save] stores as cancelled always has a
    cancellation date.  When the instance came without one, the date is
    the current time and the refund is the total price of the ticket as
    stored: the quantity times the unit price after the event's price was
    copied into a zero price. *)
Theorem Ticket_save_stamps_cancellation
        (env : Env) (y : Ticket.t) (w w' : World) (t' : Ticket.t)
        (Hst : Ticket.status y = cancelled)
        (Hsave : models.Ticket_save env y w = (Return t', w')) :
  Ticket.status t' = cancelled /\
  Ticket.cancelled_date t' <> None /\
  (Ticket.cancelled_date y = None ->
   Ticket.cancelled_date t' = Some (clock env) /\
   Ticket.refund_amount t' = Ticket.total_price t' /\
   Ticket.price t' = saved_price (db w) y).
Proof.
  apply Ticket_save_inv in Hsave as (y1 & k & Hy1 & _ & _ & Hshape & _).
  assert (Ticket.status y1 = cancelled /\
          Ticket.cancelled_date y1 = Ticket.cancelled_date y /\
          Ticket.quantity y1 = Ticket.quantity y /\
          saved_price (db w) y1 = saved_price (db w) y)
    as (Hs1 & Hc1 & Hq1 & Hp1)
    by (destruct Hy1 as [[_ ->] | (_ & ref & -> & _)]; simpl; done).
  set (z := models.Ticket_presave env (db w) y1) in *.
  assert (Ticket.status t' = Ticket.status z /\
          Ticket.cancelled_date t' = Ticket.cancelled_date z /\
          Ticket.refund_amount t' = Ticket.refund_amount z /\
          Ticket.price t' = Ticket.price z /\
          Ticket.quantity t' = Ticket.quantity z) as (Hs & Hc & Hr & Hp & Hq)
    by (destruct Hshape as [[_ ->] | (_ & _ & ->)]; simpl; done).
  destruct (presave_keeps env (db w) y1) as (_ & Hsz & Hqz & _ & _ & Hpz).
  fold z in Hsz, Hqz, Hpz.
  unfold Ticket.total_price. rewrite Hs, Hc, Hr, Hp, Hq, Hsz, Hqz, Hpz.
  split; [done|]. split.
  - destruct (Ticket.cancelled_date y1) as [c|] eqn:Hcd.
    + destruct (presave_later_cancellation env (db w) y1 c Hcd) as (H & _).
      fold z in H. by rewrite H.
    + destruct (presave_first_cancellation env (db w) y1 Hs1 Hcd) as (H & _).
      fold z in H. by rewrite H.
  - intros Hnone. rewrite Hnone in Hc1.
    destruct (presave_first_cancellation env (db w) y1 Hs1 Hc1) as (H1 & H2).
    fold z in H1, H2. by rewrite H1, H2, Hp1.
Qed.

Lemma Ticket_save_stamps_cancellation_witness :
  let y := sample_ticket 0 2 cancelled None 0 in
  let w := sample_world (sample_event (Some 20030) 68400 2000 7) [y] in
  exists t' w',
    models.Ticket_save sample_env y w = (Return t', w') /\
    Ticket.status t' = cancelled /\
    Ticket.cancelled_date t' <> None /\
    (Ticket.cancelled_date y = None ->
     Ticket.cancelled_date t' = Some (clock sample_env) /\
     Ticket.refund_amount t' = Ticket.total_price t' /\
     Ticket.price t' = saved_price (db w) y).
Proof.
  intros y w. eexists _, _. split.
  - vm_compute. reflexivity.
  - eapply (Ticket_save_stamps_cancellation sample_env y w).
    + reflexivity.
    + vm_compute. reflexivity.
Defined.

(** The figures over the rows do not depend on the order of the rows. *)
Lemma count_rows_Permutation (P : Ticket.t -> bool) (l l' : list Ticket.t) :
  l ≡ₚ l' -> count_rows P l = count_rows P l'.
Proof.
  induction 1 as [|a l l' _ IH|a b l|l l' l'' _ IH1 _ IH2]; simpl.
  - done.
  - by rewrite IH.
  - by destruct (P a), (P b).
  - congruence.
Qed.

Lemma total_rows_Permutation (P : Ticket.t -> bool) (l l' : list Ticket.t) :
  l ≡ₚ l' -> total_rows P l = total_rows P l'.
Proof.
  induction 1 as [|a l l' _ IH|a b l|l l' l'' _ IH1 _ IH2]; simpl.
  - done.
  - by rewrite IH.
  - destruct (P a), (P b); lia.
  - congruence.
Qed.

(** Rewriting one row of the tickets table moves that row only. *)
Lemma all_tickets_insert (d d' : DB) (pk : positive) (x x' : Ticket.t) :
  tickets d !! pk = Some x ->
  tickets d' = <[pk := x']> (tickets d) ->
  exists rest,
    views.all_tickets d ≡ₚ Ticket.set_pk (Some pk) x :: rest /\
    views.all_tickets d' ≡ₚ Ticket.set_pk (Some pk) x' :: rest.
Proof.
  intros Hx Hd'. unfold views.all_tickets.
  exists (map (fun kv => Ticket.set_pk (Some (fst kv)) (snd kv))
              (map_to_list (delete pk (tickets d)))).
  split.
  - rewrite <- (map_to_list_delete (tickets d) pk x Hx). done.
  - rewrite Hd', <- insert_delete_eq.
    rewrite map_to_list_insert by apply lookup_delete_eq. done.
Qed.

(** A successful [cancel] changes no date of any event. *)
Lemma event_date_gte_insert (d d' : DB) (i : positive) (e : Event.t) (n day : Z)
      (t : Ticket.t) :
  events d !! i = Some e ->
  events d' = <[i := seats_restored i n e]> (events d) ->
  views.event_date_gte d' day t = views.event_date_gte d day t.
Proof.
  intros Hev Hd'.
  unfold views.event_date_gte, models.related_event, models.Event_load.
  destruct (Ticket.event_id t) as [j|]; [|done]. rewrite Hd'.
  destruct (decide (i = j)) as [<-|Hne].
  - by rewrite lookup_insert_eq, Hev.
  - by rewrite lookup_insert_ne.
Qed.

(** X26. A successful cancel request of one user leaves the stats of
    every other user as they were: the same total count, upcoming count
    and total spent, whatever the clock of the stats query. *)
Theorem cancel_leaves_other_users_stats
        (env env2 : Env) (user other pk : positive) (w w' : World)
        (x : Ticket.t) (refund : Z)
        (Hx : tickets (db w) !! pk = Some x)
        (Hok : views.TicketViewSet_cancel env user pk w
               = (Return (views.CancelledOk refund), w'))
        (Hother : other <> user) :
  fst (views.TicketViewSet_stats env2 other w')
  = fst (views.TicketViewSet_stats env2 other w).
Proof.
  destruct (cancel_ok_inv env user pk w w' x refund Hx Hok)
    as (Hown & Hst & i & e & He & Hev & _).
  destruct (cancel_done env user pk w w' x i e refund Hx Hown Hst He Hev Hok)
    as (x' & Hevents & Htickets & _ & _ & Hu & _).
  destruct (all_tickets_insert (db w) (db w') pk x x' Hx Htickets)
    as (rest & Hl & Hl').
  assert (forall P : Ticket.t -> bool,
            count_rows (fun t => views.owned_by other t && P t)
                       (views.all_tickets (db w'))
            = count_rows (fun t => views.owned_by other t && P t)
                         (views.all_tickets (db w)) /\
            total_rows (fun t => views.owned_by other t && P t)
                       (views.all_tickets (db w'))
            = total_rows (fun t => views.owned_by other t && P t)
                         (views.all_tickets (db w))) as Hsame.
  { intros P.
    rewrite (count_rows_Permutation _ _ _ Hl), (count_rows_Permutation _ _ _ Hl').
    rewrite (total_rows_Permutation _ _ _ Hl), (total_rows_Permutation _ _ _ Hl').
    simpl. unfold views.owned_by. simpl. rewrite Hu, Hown.
    rewrite bool_decide_eq_false_2 by congruence. done. }
  unfold views.TicketViewSet_stats, views.get_queryset. run_monad.
  rewrite !length_filter_count, !count_rows_filter.
  rewrite !sum_spent_filter, !total_rows_filter.
  destruct (Hsame (fun _ => true)) as (Htot & _).
  destruct (Hsame views.is_confirmed) as (_ & Hspent).
  destruct (Hsame (fun t => views.is_confirmed t
                            && views.event_date_gte (db w) (today env2) t))
    as (Hup & _).
  rewrite Hspent, <- Hup.
  rewrite (count_rows_ext (views.owned_by other)
             (fun t => views.owned_by other t && true))
    by (intros t; by rewrite andb_true_r).
  rewrite (count_rows_ext (views.owned_by other)
             (fun t => views.owned_by other t && true)
             (views.all_tickets (db w)))
    by (intros t; by rewrite andb_true_r).
  rewrite Htot.
  rewrite (count_rows_ext
             (fun t => views.owned_by other t
                       && (views.is_confirmed t
                           && views.event_date_gte (db w') (today env2) t))
             (fun t => views.owned_by other t
                       && (views.is_confirmed t
                           && views.event_date_gte (db w) (today env2) t)));
    [done|].
  intros t.
  by rewrite (event_date_gte_insert (db w) (db w') i e (Ticket.quantity x)
                (today env2) t Hev Hevents).
Qed.

Lemma cancel_leaves_other_users_stats_witness :
  let x := sample_ticket 2000 3 confirmed None 0 in
  let y := Ticket.Build (Some 2%positive) "Concert Ticket" 2000 (Some 1%positive)
             (Some 8%positive) (Some 1727000500) confirmed 2
             (Some "TKT-ZZZZ9999"%string) None None 0 in
  let w := sample_world (sample_event (Some 20030) 68400 2000 5) [x; y] in
  let w' := snd (views.TicketViewSet_cancel sample_env 7%positive 1%positive w) in
  fst (views.TicketViewSet_stats sample_env 8%positive w')
  = fst (views.TicketViewSet_stats sample_env 8%positive w).
Proof.
  intros x y w w'.
  apply (cancel_leaves_other_users_stats sample_env sample_env 7%positive
           8%positive 1%positive w w' x 6000).
  - vm_compute. reflexivity.
  - vm_compute. reflexivity.
  - discriminate.
Defined.

(** The reference number a successful [cancel] leaves on the ticket: the
    one it had, or a drawn one that no row carried. *)
Lemma cancel_done_reference (env : Env) (user pk : positive) (w w' : World)
      (x : Ticket.t) (refund : Z) :
  tickets (db w) !! pk = Some x ->
  views.TicketViewSet_cancel env user pk w
  = (Return (views.CancelledOk refund), w') ->
  exists x',
    tickets (db w') = <[pk := x']> (tickets (db w)) /\
    (Ticket.reference_number x' = Ticket.reference_number x \/
     exists r, Ticket.reference_number x' = Some r /\ unused_reference (db w) r).
Proof.
  intros Hx Hok.
  destruct (cancel_ok_inv env user pk w w' x refund Hx Hok)
    as (Hown & Hst & i & e & He & Hev & _).
  rewrite (cancel_run env user pk w x i e) in Hok by done.
  destruct (cancel_too_late env e); [discriminate|].
  destruct (Event.date e) as [day|] eqn:Hday; [|discriminate]. cbv zeta in Hok.
  set (w1 := mkWorld _ _) in Hok.
  set (y := Ticket.set_status cancelled (Ticket.set_pk (Some pk) x)) in Hok.
  destruct (models.Ticket_save env y w1) as [[t'|ex|] w2] eqn:Hsave;
    [|discriminate..].
  injection Hok as _ <-.
  apply Ticket_save_inv in Hsave as (y1 & k & Hy1 & _ & _ & Hshape & Hdb).
  assert (k = pk /\ t' = models.Ticket_presave env (db w1) y1) as [-> Ht'].
  { destruct Hshape as [[[Hpk _] Ht'] | ([Hpk|Hpk] & Hfree & _)].
    - by injection Hpk as <-.
    - discriminate.
    - injection Hpk as <-. subst w1. simpl in Hfree. congruence. }
  destruct (presave_frame env (db w1) y1) as (_ & _ & Hrn & _).
  rewrite <- Ht' in Hrn.
  exists t'. split; [by rewrite Hdb|]. rewrite Hrn.
  destruct Hy1 as [[_ ->] | (_ & ref & -> & _ & _ & Hun)]; [by left|].
  right. exists ref. split; [done|]. exact Hun.
Qed.

Lemma cancel_preserves_unique_references (env : Env) (user pk : positive)
      (w : World) :
  unique_references (db w) ->
  unique_references (db (snd (views.TicketViewSet_cancel env user pk w))).
Proof.
  intros Huniq.
  destruct (cancel_changes_only_on_success env user pk w) as [[refund Hok]|Hsame];
    [|by rewrite Hsame].
  destruct (views.TicketViewSet_cancel env user pk w) as [o w'] eqn:Hrun.
  simpl in *. subst o.
  destruct (tickets (db w) !! pk) as [x|] eqn:Hx; cycle 1.
  { revert Hrun. unfold views.TicketViewSet_cancel, views.get_object. run_monad.
    by rewrite Hx. }
  destruct (cancel_done_reference env user pk w w' x refund Hx Hrun)
    as (x' & Htickets & Href).
  intros j k a b r. rewrite Htickets, !lookup_insert.
  destruct (decide (pk = j)) as [<-|Hj], (decide (pk = k)) as [<-|Hk];
    try done.
  - intros [= <-] Hb Ha' Hb'. exfalso.
    destruct Href as [Hsame | (r' & Hr' & Hun)].
    + apply Hk. apply (Huniq pk k x b r); congruence.
    + apply (Hun k b Hb). congruence.
  - intros Ha [= <-] Ha' Hb'. exfalso.
    destruct Href as [Hsame | (r' & Hr' & Hun)].
    + apply Hj. apply (Huniq pk j x a r); congruence.
    + apply (Hun j a Ha). congruence.
  - intros Ha Hb. by apply Huniq.
Qed.

(** X27. Reference numbers stay unique: whatever purchase and cancel
    requests are served, from a tickets table in which no two rows carry
    the same reference number, no two rows carry the same reference number
    afterwards, also when a cancel makes [Ticket.save] draw a reference
    number for a ticket that had none. *)
Theorem references_stay_unique (rs : list request) (w : World)
        (Hw : unique_references (db w)) :
  unique_references (db (serve rs w)).
Proof.
  revert w Hw. induction rs as [|r rs IH]; intros w Hw; [done|].
  apply IH. destruct r as [env user data|env user pk]; simpl.
  - by rewrite (proj1 (create_never_creates env user data w)).
  - by apply cancel_preserves_unique_references.
Qed.

Lemma two_rows_unique_references :
  unique_references
    (db (sample_world (sample_event (Some 20030) 68400 2000 5)
           [sample_ticket 2000 3 confirmed None 0;
            Ticket.Build (Some 2%positive) "Concert Ticket" 2000
              (Some 1%positive) (Some 7%positive) (Some 1727000500)
              confirmed 2 None None None 0])).
Proof.
  intros j k a b r. simpl. rewrite insert_empty.
  rewrite !lookup_insert_Some, !lookup_singleton_Some.
  intros [[<- <-] | [_ [<- <-]]] [[<- <-] | [_ [<- <-]]]; simpl;
    intros; try done; discriminate.
Defined.

Lemma references_stay_unique_witness :
  let x := sample_ticket 2000 3 confirmed None 0 in
  let y := Ticket.Build (Some 2%positive) "Concert Ticket" 2000
             (Some 1%positive) (Some 7%positive) (Some 1727000500)
             confirmed 2 None None None 0 in
  let w := sample_world (sample_event (Some 20030) 68400 2000 5) [x; y] in
  let rs := [Cancel sample_env 7%positive 2%positive;
             Purchase sample_env 7%positive (serializers.mkPurchase 1 3);
             Cancel sample_env 7%positive 1%positive] in
  unique_references (db (serve rs w)) /\
  (Ticket.reference_number <$> tickets (db w) !! 2%positive) = Some None /\
  (Ticket.reference_number <$> tickets (db (serve rs w)) !! 2%positive)
  = Some (Some "TKT-IJKLMNOP"%string) /\
  (Ticket.reference_number <$> tickets (db (serve rs w)) !! 1%positive)
  = Some (Some "TKT-ABCDEFGH"%string).
Proof.
  intros x y w rs. split; [|split; [|split]].
  - apply (references_stay_unique rs w). exact two_rows_unique_references.
  - vm_compute. reflexivity.
  - vm_compute. reflexivity.
  - vm_compute. reflexivity.
Defined.
